(** * mdp-rrd-monitor: the freshness and rendering scheduler of [main.py]

    A shallow embedding of [src/mdp_rrd_monitor/main.py]: the target
    descriptor ([Target.of]), the value fetcher ([get_value]), the value
    formatter ([format]) and the round-robin loop of [main], followed by
    the properties the specification states about them.

    Conventions of the embedding.
    - A Python [str] is a [string]; one character of the model stands for
      one code point (code points below 256 are covered).
    - A Python [float] is a binary64 number, [spec_float] at precision 53
      and maximal exponent 1024.
    - A raised exception is a value [Raise e] of the type [result].
    - [datetime] and [timedelta] count microseconds, as Python does.
    - The builtins behave as in CPython 3.11 on Linux.
    - The clock, the [rrdtool] subprocess and the display are the
      environment: a record [World] threaded through the monad [M], which
      also records every interaction in a trace. *)

From Stdlib Require Import ZArith NArith Lia Bool List Ascii String.
From Stdlib Require Import DecimalString DecimalFacts DecimalPos DecimalN.
From Stdlib Require Import Floats.SpecFloat.
From stdpp Require Import base list.

Local Open Scope string_scope.
Local Open Scope Z_scope.

(** ** Exceptions *)

Inductive exn : Type :=
  | IndexError
  | ValueError
  | OverflowError
  | OSError.

Inductive result (A : Type) : Type :=
  | Ok (a : A)
  | Raise (e : exn).

Arguments Ok {A} a.
Arguments Raise {A} e.

#[global] Instance result_ret : MRet result := fun A a => Ok a.

#[global] Instance result_bind : MBind result := fun A B k r =>
  match r with
  | Ok a => k a
  | Raise e => Raise e
  end.

(** ** Strings *)

Module Str.

Definition len (s : string) : Z := Z.of_nat (String.length s).

(** [s[i]] for a non-negative index [i]. *)
Definition index (s : string) (i : nat) : result ascii :=
  match String.get i s with
  | Some c => Ok c
  | None => Raise IndexError
  end.

Fixpoint repeat (c : ascii) (n : nat) : string :=
  match n with
  | O => EmptyString
  | S n' => String c (repeat c n')
  end.

(** Right-justify [s] in a field of [w] characters, padding with spaces:
    what a width does in a [%] conversion. *)
Definition rjust (w : nat) (s : string) : string :=
  repeat " "%char (w - String.length s) ++ s.

(** [c in s] for a single character [c]. *)
Fixpoint contains (c : ascii) (s : string) : bool :=
  match s with
  | EmptyString => false
  | String a s' => Ascii.eqb a c || contains c s'
  end.

(** [s.split(c, 1)] when [c] occurs in [s]: the text before the first
    [c] and the text after it. *)
Fixpoint cut (c : ascii) (s : string) : string * string :=
  match s with
  | EmptyString => (EmptyString, EmptyString)
  | String a s' =>
      if Ascii.eqb a c then (EmptyString, s')
      else let '(l, r) := cut c s' in (String a l, r)
  end.

(** [s.split(c, n)]: at most [n] cuts, the last field keeps the rest. *)
Fixpoint splitn (c : ascii) (n : nat) (s : string) : list string :=
  match n with
  | O => [s]
  | S n' =>
      if contains c s
      then let '(l, r) := cut c s in l :: splitn c n' r
      else [s]
  end.

(** Decimal digits of a natural number, no sign and no leading zero. *)
Definition digits (n : N) : string := NilEmpty.string_of_uint (N.to_uint n).

(** [str(z)] for an integer. *)
Definition of_int (z : Z) : string :=
  match z with
  | Zneg p => String "-" (digits (Npos p))
  | _ => digits (Z.to_N z)
  end.

End Str.

(** ** Floating-point numbers: binary64 *)

Module Float.

Definition float : Type := spec_float.

Definition prec : Z := 53.
Definition emax : Z := 1024.

Definition zero : float := S754_zero false.

(** [x * y] and [x < y] on floats. *)
Definition mul (x y : float) : float := SFmul prec emax x y.
Definition ltb (x y : float) : bool := SFltb x y.

(** [float(z)] for an integer [z], rounded to nearest, ties to even. *)
Definition of_Z (z : Z) : float := binary_normalize prec emax z 0 false.

(** The float nearest to [n / d] for positive integers [n] and [d]. *)
Definition of_ratio (s : bool) (n d : positive) : float :=
  let '(q, e, l) := SFdiv_core_binary prec emax (Zpos n) 0 (Zpos d) 0 in
  binary_round_aux prec emax s q e l.

Definition one : float := of_Z 1.

Definition is_finite (v : float) : bool :=
  match v with
  | S754_zero _ | S754_finite _ _ _ => true
  | S754_infinity _ | S754_nan => false
  end.

(** [int(v)]: truncation towards zero; infinities and NaN raise. *)
Definition to_int (v : float) : result Z :=
  match v with
  | S754_zero _ => Ok 0
  | S754_finite s m e =>
      let a := if 0 <=? e then Zpos m * 2 ^ e else Zpos m / 2 ^ (- e) in
      Ok (if s then - a else a)
  | S754_infinity _ => Raise OverflowError
  | S754_nan => Raise ValueError
  end.

(** The integer nearest to [10 * m * 2^e], ties to even: the digits of
    the magnitude of a finite float printed with one decimal place. *)
Definition tenths (m : positive) (e : Z) : N :=
  if 0 <=? e then Z.to_N (10 * Zpos m * 2 ^ e)
  else
    let d := 2 ^ (- e) in
    let q := (10 * Zpos m) / d in
    let r := (10 * Zpos m) mod d in
    Z.to_N (if 2 * r <? d then q
            else if d <? 2 * r then q + 1
            else if Z.even q then q else q + 1).

Definition minus (s : bool) : string := if s then "-" else "".

(** ["%.1f" % v]. *)
Definition fixed1 (v : float) : string :=
  match v with
  | S754_nan => "nan"
  | S754_infinity s => minus s ++ "inf"
  | S754_zero s => minus s ++ "0.0"
  | S754_finite s m e =>
      let t := tenths m e in
      minus s ++ Str.digits (t / 10) ++ "." ++ Str.digits (t mod 10)
  end.

End Float.

Abbreviation float := Float.float.

(** ** The builtins [int] and [float] applied to a string *)

Module Py.

Definition code (c : ascii) : N := N_of_ascii c.

(** The whitespace [int] and [float] strip: the ASCII blanks and, of the
    code points from 128 to 255, the two Unicode spaces. *)
Definition is_space (c : ascii) : bool :=
  let n := code c in
  ((9 <=? n) && (n <=? 13) || (n =? 32) || (n =? 133) || (n =? 160))%N.

Definition is_digit (c : ascii) : bool :=
  let n := code c in ((48 <=? n) && (n <=? 57))%N.

Definition digit (c : ascii) : Z := Z.of_N (code c) - 48.

(** ASCII lower case, for the case-insensitive words of [float]. *)
Definition lower (c : ascii) : ascii :=
  let n := code c in
  if ((65 <=? n) && (n <=? 90))%N then ascii_of_N (n + 32) else c.

Fixpoint lstrip (l : list ascii) : list ascii :=
  match l with
  | c :: l' => if is_space c then lstrip l' else l
  | [] => []
  end.

Definition strip (l : list ascii) : list ascii :=
  rev (lstrip (rev (lstrip l))).

(** An optional sign: [true] for a minus. *)
Definition sign (l : list ascii) : bool * list ascii :=
  match l with
  | c :: l' =>
      if Ascii.eqb c "+" then (false, l')
      else if Ascii.eqb c "-" then (true, l')
      else (false, l)
  | [] => (false, [])
  end.

(** The longest prefix of the form [digit (["_"] digit)*], as its
    digits, and what follows it. *)
Fixpoint digitpart (l : list ascii) : list Z * list ascii :=
  match l with
  | c :: l' =>
      if is_digit c then
        let '(ds, r) :=
          match l' with
          | u :: ((d :: _) as l'') =>
              if Ascii.eqb u "_" && is_digit d then digitpart l''
              else digitpart l'
          | _ => digitpart l'
          end in
        (digit c :: ds, r)
      else ([], l)
  | [] => ([], [])
  end.

Definition number (ds : list Z) : Z :=
  fold_left (fun acc d => 10 * acc + d) ds 0.

(** The default of [sys.set_int_max_str_digits]. *)
Definition max_str_digits : nat := 4300.

(** [int(s)]: base ten, surrounding whitespace, a sign, underscores
    between digits; anything else is a [ValueError]. *)
Definition int_of_str (s : string) : result Z :=
  let '(neg, l) := sign (strip (list_ascii_of_string s)) in
  match digitpart l with
  | ((_ :: _) as ds, []) =>
      if (max_str_digits <? length ds)%nat then Raise ValueError
      else Ok (if neg then - number ds else number ds)
  | _ => Raise ValueError
  end.

(** The float nearest to [m * 10^k]. *)
Definition decimal (neg : bool) (m k : Z) : float :=
  match m with
  | Zpos p =>
      match k with
      | Zneg k' => Float.of_ratio neg p (10 ^ k')%positive
      | _ => binary_round Float.prec Float.emax neg (p * Z.to_pos (10 ^ k)) 0
      end
  | _ => S754_zero neg
  end.

(** An optional exponent [("e" | "E") [sign] digitpart]. *)
Definition exponent (l : list ascii) : Z * list ascii :=
  match l with
  | c :: l' =>
      if Ascii.eqb (lower c) "e" then
        let '(neg, l'') := sign l' in
        match digitpart l'' with
        | ((_ :: _) as ds, r) => (if neg then - number ds else number ds, r)
        | _ => (0, l)
        end
      else (0, l)
  | [] => (0, l)
  end.

(** [float(s)]: surrounding whitespace, a sign, then [inf], [infinity]
    or [nan] in any case, or a decimal number with an optional fraction
    and exponent; anything else is a [ValueError]. *)
Definition float_of_str (s : string) : result float :=
  let '(neg, l) := sign (strip (list_ascii_of_string s)) in
  let w := string_of_list_ascii (map lower l) in
  if String.eqb w "inf" || String.eqb w "infinity" then Ok (S754_infinity neg)
  else if String.eqb w "nan" then Ok S754_nan
  else
    let '(ip, l1) := digitpart l in
    let '(fp, l2) :=
      match l1 with
      | c :: l1' => if Ascii.eqb c "." then digitpart l1' else ([], l1)
      | [] => ([], l1)
      end in
    match (ip ++ fp)%list with
    | [] => Raise ValueError
    | _ :: _ =>
        match exponent l2 with
        | (e, []) =>
            Ok (decimal neg (number (ip ++ fp)) (e - Z.of_nat (length fp)))
        | _ => Raise ValueError
        end
    end.

End Py.

(** ** The value formatter *)

(** ["%5.1f" % v] *)
Definition percent_5_1f (v : float) : string := Str.rjust 5 (Float.fixed1 v).

(** ["%5d" % v]: the float is converted with [int] first. *)
Definition percent_5d (v : float) : result string :=
  n ← Float.to_int v; Ok (Str.rjust 5 (Str.of_int n)).

(** [5 < len(r) or (r[0] != " " and r[0] != "-")] *)
Definition overflows (r : string) : result bool :=
  if 5 <? Str.len r then Ok true
  else
    c ← Str.index r 0;
    if negb (Ascii.eqb c " ") then
      c' ← Str.index r 0; Ok (negb (Ascii.eqb c' "-"))
    else Ok false.

Definition format (v : float) : result string :=
  let r := percent_5_1f v in
  b ← overflows r;
  if b : bool then
    r ← percent_5d v;
    b ← overflows r;
    if b : bool then Ok (if Float.ltb Float.zero v then " High" else " Low ")
    else Ok r
  else Ok r.


(** ** Targets *)

(** [pathlib.Path], kept as the text it was built from. *)
Record Path : Type := mkPath { path_str : string }.

Module Target.

Record t : Type := mk { symbol : string; file : Path; scale : float }.

(** [Target.of]; [of] is reserved, hence the underscore. *)
Definition of_ (s : string) : result t :=
  match Str.splitn "," 2 s with
  | [y; p] =>
      if negb (Str.len y =? 1) then Raise ValueError
      else Ok (mk y (mkPath p) Float.one)
  | [y; p; f] =>
      if negb (Str.len y =? 1) then Raise ValueError
      else x ← Py.float_of_str f; Ok (mk y (mkPath p) x)
  | _ => Raise ValueError
  end.

End Target.

(** ** Dates and the stored reading *)

Module Datetime.

(** A naive local [datetime]: microseconds of wall-clock time counted
    from 1970-01-01T00:00:00. *)
Record t : Type := mk { micros : Z }.

(** A [timedelta], in microseconds. *)
Definition timedelta : Type := Z.

Definition seconds (n : Z) : timedelta := n * 1000000.

(** [a - b] *)
Definition sub (a b : t) : timedelta := micros a - micros b.

(** Wall-clock seconds of 0001-01-01T00:00:00 and of
    9999-12-31T23:59:59, the first and the last second a [datetime]
    can hold. *)
Definition min_seconds : Z := -62135596800.
Definition max_seconds : Z := 253402300799.

(** Range of the platform's [time_t], and the wall-clock seconds whose
    year the C library can still break down (glibc, 64 bits). *)
Definition time_t_min : Z := - 2 ^ 63.
Definition time_t_max : Z := 2 ^ 63 - 1.
Definition tm_min : Z := -67768040609740800.
Definition tm_max : Z := 67768036191676799.

(** The wall-clock second of the instant [n] on a host whose local time
    is [utcoffset n] seconds ahead of UTC then; the year must be one of
    1..9999. *)
Definition local (utcoffset : Z -> Z) (n : Z) : result Z :=
  let l := n + utcoffset n in
  if (l <? tm_min) || (tm_max <? l) then Raise OSError
  else if (l <? min_seconds) || (max_seconds <? l) then Raise ValueError
  else Ok l.

Definition max_fold_seconds : Z := 86400.

(** [datetime.fromtimestamp(n)]: the local time of [n], after the local
    time one day earlier was computed as well, to detect a repeated
    hour. *)
Definition fromtimestamp (utcoffset : Z -> Z) (n : Z) : result t :=
  if (n <? time_t_min) || (time_t_max <? n) then Raise OverflowError
  else
    l ← local utcoffset n;
    _ ← local utcoffset (n - max_fold_seconds);
    Ok (mk (seconds l)).

End Datetime.

Abbreviation datetime := Datetime.t.
Abbreviation timedelta := Datetime.timedelta.

Record State : Type := mkState { at_ : datetime; value : float }.

(** ** The environment *)

(** What [subprocess.run] reports back. *)
Record Reply : Type := mkReply { returncode : Z; stdout : string }.

Inductive Event : Type :=
  | EvNow (d : datetime)
  | EvDebugState (i : nat) (s : option State)
  | EvRun (cmdline : list string) (r : Reply)
  | EvDebugLine (a : string)
  | EvBrightness (b : float)
  | EvScroll (s : string) (row_spacing : Z) (scroll_wait : float)
  | EvSleep (seconds : float).

(** The clock and the collaborator are oracles indexed by the number of
    times they were consulted so far. *)
Record World : Type := mkWorld {
  utcoffset : Z -> Z;
  clock : nat -> datetime;
  rrdtool : nat -> list string -> Reply;
  ticks : nat;
  runs : nat;
  trace : list Event
}.

Definition emit (e : Event) (w : World) : World :=
  mkWorld (utcoffset w) (clock w) (rrdtool w) (ticks w) (runs w)
          (trace w ++ [e])%list.

Definition M (A : Type) : Type := World -> result A * World.

#[global] Instance M_ret : MRet M := fun A a w => (Ok a, w).

#[global] Instance M_bind : MBind M := fun A B k m w =>
  match m w with
  | (Ok a, w') => k a w'
  | (Raise e, w') => (Raise e, w')
  end.

Definition lift {A : Type} (r : result A) : M A := fun w => (r, w).

(** [datetime.now()] *)
Definition datetime_now : M datetime := fun w =>
  let d := clock w (ticks w) in
  (Ok d, emit (EvNow d)
           (mkWorld (utcoffset w) (clock w) (rrdtool w) (S (ticks w)) (runs w)
                    (trace w))).

(** [subprocess.run(cmdline, text=True, capture_output=True)] *)
Definition subprocess_run (cmdline : list string) : M Reply := fun w =>
  let r := rrdtool w (runs w) cmdline in
  (Ok r, emit (EvRun cmdline r)
           (mkWorld (utcoffset w) (clock w) (rrdtool w) (ticks w) (S (runs w))
                    (trace w))).

Definition log (e : Event) : M unit := fun w => (Ok tt, emit e w).

(** [datetime.fromtimestamp(n)] on the host of the world. *)
Definition datetime_fromtimestamp (n : Z) : M datetime := fun w =>
  (Datetime.fromtimestamp (utcoffset w) n, w).

(** ** The value fetcher *)

(** The characters at which [str.splitlines] breaks a line. *)
Definition is_linebreak (c : ascii) : bool :=
  let n := Py.code c in
  ((10 <=? n) && (n <=? 13) || (28 <=? n) && (n <=? 30) || (n =? 133))%N.

(** [s.splitlines()]; [after_cr] tells that the previous character was a
    carriage return, which a line feed then completes. *)
Fixpoint splitlines_from (after_cr : bool) (s : string) : list string :=
  match s with
  | EmptyString => []
  | String c s' =>
      if after_cr && Ascii.eqb c "010" then splitlines_from false s'
      else if is_linebreak c then
        EmptyString :: splitlines_from (Ascii.eqb c "013") s'
      else
        match splitlines_from false s' with
        | [] => [String c EmptyString]
        | h :: t => String c h :: t
        end
  end.

Definition splitlines (s : string) : list string := splitlines_from false s.

(** [l[-1]] *)
Definition last_item {A : Type} (l : list A) : result A :=
  match last l with
  | Some a => Ok a
  | None => Raise IndexError
  end.

(** Lines 48-50: the command line of the collaborator. *)
Definition cmdline (target : Target.t) (rrdcache : option Path) : list string :=
  (["rrdtool"; "lastupdate"; path_str (Target.file target)]
   ++ match rrdcache with
      | Some p => ["--daemon"; String.append "unix:" (path_str p)]
      | None => []
      end)%list.

Definition get_value (target : Target.t) (rrdcache : option Path)
  : M (option State) :=
  r ← subprocess_run (cmdline target rrdcache);
  if negb (returncode r =? 0) then mret None
  else
    a ← lift (last_item (splitlines (stdout r)));
    if Str.contains ":" a then
      _ ← log (EvDebugLine a);
      let '(t, v) := Str.cut ":" a in
      if String.eqb v "U" then mret None
      else
        n ← lift (Py.int_of_str t);
        d ← datetime_fromtimestamp n;
        x ← lift (Py.float_of_str v);
        mret (Some (mkState d x))
    else mret None.

(** ** The display *)

(** [scroll_to(s, row_spacing, scroll_wait)]: the label handed to the
    display collaborator for its scroll-in transition. *)
Definition scroll_to (s : string) (row_spacing : Z) (scroll_wait : float)
  : M unit :=
  log (EvScroll s row_spacing scroll_wait).

(** [microdotphat.set_brightness(b)] *)
Definition set_brightness (b : float) : M unit := log (EvBrightness b).

(** [time.sleep(seconds)] *)
Definition time_sleep (seconds : float) : M unit := log (EvSleep seconds).

(** ** The round-robin loop of [main] *)

(** The parsed command line, as far as the loop reads it. *)
Record Config : Type := mkConfig {
  update_interval : timedelta;
  error_threashold : timedelta;
  rrdcache : option Path;
  brightness : float;
  row_spacing : Z;
  scroll_wait : float;
  row_wait : float
}.

(** [enumerate(l)] as an iterator: the next index and the items left. *)
Record Enumerate (A : Type) : Type :=
  mkEnumerate { en_count : nat; en_rest : list A }.
Arguments mkEnumerate {A} _ _.
Arguments en_count {A} _.
Arguments en_rest {A} _.

Definition enumerate {A : Type} (l : list A) : Enumerate A := mkEnumerate 0 l.

(** [next(it)]; [None] is [StopIteration]. *)
Definition enumerate_next {A : Type} (it : Enumerate A)
  : option ((nat * A) * Enumerate A) :=
  match en_rest it with
  | [] => None
  | x :: r => Some ((en_count it, x), mkEnumerate (S (en_count it)) r)
  end.

(** [itertools.cycle(it)]: the source iterator until it is exhausted,
    the items saved so far, and the replay position. *)
Record Cycle (A : Type) : Type :=
  mkCycle { cy_it : option (Enumerate A);
            cy_saved : list (nat * A);
            cy_index : nat }.
Arguments mkCycle {A} _ _ _.
Arguments cy_it {A} _.
Arguments cy_saved {A} _.
Arguments cy_index {A} _.

Definition cycle {A : Type} (it : Enumerate A) : Cycle A :=
  mkCycle (Some it) [] 0.

Definition cycle_replay {A : Type} (saved : list (nat * A)) (index : nat)
  : option ((nat * A) * Cycle A) :=
  match saved !! index with
  | None => None
  | Some item =>
      let index' := S index in
      Some (item,
            mkCycle None saved
                    (if (length saved <=? index')%nat then 0%nat else index'))
  end.

Definition cycle_next {A : Type} (c : Cycle A)
  : option ((nat * A) * Cycle A) :=
  match cy_it c with
  | Some it =>
      match enumerate_next it with
      | Some (item, it') =>
          Some (item, mkCycle (Some it') (cy_saved c ++ [item])%list (cy_index c))
      | None => cycle_replay (cy_saved c) (cy_index c)
      end
  | None => cycle_replay (cy_saved c) (cy_index c)
  end.

Abbreviation States := (list (option State)).

(** [l[i]] for a non-negative index. *)
Definition getitem {A : Type} (l : list A) (i : nat) : result A :=
  match l !! i with
  | Some a => Ok a
  | None => Raise IndexError
  end.

(** [l[i] = x] for a non-negative index. *)
Definition setitem {A : Type} (l : list A) (i : nat) (x : A) : result (list A) :=
  if (i <? length l)%nat then Ok (<[i := x]> l) else Raise IndexError.

(** [s is None or delta < now - s.at] *)
Definition older_than (delta : timedelta) (now : datetime) (s : option State)
  : bool :=
  match s with
  | None => true
  | Some st => delta <? Datetime.sub now (at_ st)
  end.

(** Lines 128-131: sample the clock, read the slot. *)
Definition select (states : States) (i : nat) : M (datetime * option State) :=
  now ← datetime_now;
  s ← lift (getitem states i);
  _ ← log (EvDebugState i s);
  mret (now, s).

(** Lines 133-136: fetch when due, store a successful fetch. *)
Definition maybe_refresh (cfg : Config) (t : Target.t) (i : nat)
    (now : datetime) (s : option State) (states : States)
  : M (States * option State) :=
  if older_than (update_interval cfg) now s then
    ns ← get_value t (rrdcache cfg);
    match ns with
    | Some st =>
        states' ← lift (setitem states i (Some st));
        mret (states', Some st)
    | None => mret (states, s)
    end
  else mret (states, s).

(** Lines 138-144: the error label or the formatted value. *)
Definition render (cfg : Config) (t : Target.t) (now : datetime)
    (s : option State) : M unit :=
  match s with
  | Some st =>
      if error_threashold cfg <? Datetime.sub now (at_ st) then
        scroll_to (Target.symbol t ++ " ERR ") (row_spacing cfg) (scroll_wait cfg)
      else
        let v := Float.mul (value st) (Target.scale t) in
        r ← lift (format v);
        scroll_to (Target.symbol t ++ r) (row_spacing cfg) (scroll_wait cfg)
  | None =>
      scroll_to (Target.symbol t ++ " ERR ") (row_spacing cfg) (scroll_wait cfg)
  end.

(** One iteration of the [for] loop. *)
Definition body (cfg : Config) (i : nat) (t : Target.t) (states : States)
  : M States :=
  '(now, s) ← select states i;
  '(states', s') ← maybe_refresh cfg t i now s states;
  _ ← render cfg t now s';
  _ ← time_sleep (row_wait cfg);
  mret states'.

(** The loop, cut after [n] iterations. *)
Fixpoint loop (n : nat) (cfg : Config) (it : Cycle Target.t) (states : States)
  : M States :=
  match n with
  | O => mret states
  | S n' =>
      match cycle_next it with
      | None => mret states
      | Some ((i, t), it') =>
          states' ← body cfg i t states;
          loop n' cfg it' states'
      end
  end.

(** Lines 122-146 of [main], cut after [n] iterations. *)
Definition main (n : nat) (cfg : Config) (targets : list Target.t) : M States :=
  let states : States := replicate (length targets) None in
  _ ← set_brightness (brightness cfg);
  loop n cfg (cycle (enumerate targets)) states.

(** ** The formatter and the fields of a target as the specification words them *)

Module Spec.

(** "the rendered width is at most 5 and the leading character is a
    space or a minus sign" *)
Definition accepted (r : string) : bool :=
  (Str.len r <=? 5)
  && match r with
     | String c _ => Ascii.eqb c " " || Ascii.eqb c "-"
     | EmptyString => false
     end.

(** The integer part of a finite value, the fraction dropped. *)
Definition truncate (v : float) : Z :=
  match Float.to_int v with
  | Ok n => n
  | Raise _ => 0
  end.

(** "render v as a signed integer at fixed width 5" *)
Definition signed_integer (v : float) : string :=
  Str.rjust 5 (Str.of_int (truncate v)).

(** "if v is positive" *)
Definition positive (v : float) : bool :=
  match v with
  | S754_finite false _ _ | S754_infinity false => true
  | _ => false
  end.

Definition three_tiers (v : float) : string :=
  if accepted (percent_5_1f v) then percent_5_1f v
  else if accepted (signed_integer v) then signed_integer v
  else if positive v then " High" else " Low ".

(** "comma-separated fields": every comma separates, so a string with
    [k] commas has [k + 1] fields. *)
Fixpoint fields (s : string) : list string :=
  match s with
  | EmptyString => [EmptyString]
  | String a s' =>
      if Ascii.eqb a "," then EmptyString :: fields s'
      else match fields s' with
           | f :: fs => String a f :: fs
           | [] => [String a EmptyString]
           end
  end.

End Spec.

(** ** Observations on a trace *)

(** The target indices handled, in order: one per iteration, logged at
    line 131. *)
Fixpoint visits (tr : list Event) : list nat :=
  match tr with
  | [] => []
  | EvDebugState i _ :: tr' => i :: visits tr'
  | _ :: tr' => visits tr'
  end.

(** The events that follow the clock sample and the slot record of an
    iteration: the fetch, the display and the pause. *)
Definition later_event (e : Event) : Prop :=
  match e with
  | EvNow _ | EvDebugState _ _ => False
  | _ => True
  end.

(** The item the [k]-th call of [next] on an iterator yields, counting
    from zero. *)
Fixpoint cycle_nth {A : Type} (k : nat) (c : Cycle A) : option (nat * A) :=
  match cycle_next c with
  | None => None
  | Some (item, c') =>
      match k with
      | O => Some item
      | S k' => cycle_nth k' c'
      end
  end.

(** ** Worlds reached by the steps of one iteration *)

(** After lines 128-131: one clock sample, one debug record. *)
Definition selected (i : nat) (s : option State) (w : World) : World :=
  mkWorld (utcoffset w) (clock w) (rrdtool w) (S (ticks w)) (runs w)
          (trace w ++ [EvNow (clock w (ticks w)); EvDebugState i s]).

(** The text of a successful [format], empty had it raised. *)
Definition formatted (v : float) : string :=
  match format v with
  | Ok r => r
  | Raise _ => EmptyString
  end.

(** The label lines 138-144 hand to [scroll_to]. *)
Definition label (cfg : Config) (t : Target.t) (now : datetime)
    (s : option State) : string :=
  match s with
  | Some st =>
      if error_threashold cfg <? Datetime.sub now (at_ st)
      then Target.symbol t ++ " ERR "
      else Target.symbol t ++ formatted (Float.mul (value st) (Target.scale t))
  | None => Target.symbol t ++ " ERR "
  end.

(** After lines 138-146: the label shown, then the pause. *)
Definition paced (cfg : Config) (t : Target.t) (now : datetime)
    (s : option State) (w : World) : World :=
  mkWorld (utcoffset w) (clock w) (rrdtool w) (ticks w) (runs w)
          (trace w ++ [EvScroll (label cfg t now s) (row_spacing cfg) (scroll_wait cfg);
                       EvSleep (row_wait cfg)]).

(** ** A sample environment *)

Module Sample.

(** A target [t,x.rrd] and the default intervals. *)
Definition target : Target.t := Target.mk "t" (mkPath "x.rrd") Float.one.

Definition config : Config :=
  mkConfig (Datetime.seconds 300) (Datetime.seconds 1800) None
           (Float.of_ratio false 3 100) 4 (Float.of_ratio false 1 10)
           (Float.of_Z 3).

(** A host on UTC whose clock reads [now] microseconds and whose
    collaborator always answers [r]. *)
Definition world (now : Z) (r : Reply) : World :=
  mkWorld (fun _ => 0) (fun _ => Datetime.mk now) (fun _ _ => r) 0 0 [].

(** 2023-11-14T22:13:20 on the wall clock, in microseconds. *)
Definition instant : Z := 1700000000000000.

Definition reading (age : Z) : State :=
  mkState (Datetime.mk (instant - Datetime.seconds age)) (Float.of_Z 21).

End Sample.

(** ** The iterator of the loop, position by position *)

(** [enumerate(l)] in full. *)
Definition items {A : Type} (l : list A) : list (nat * A) :=
  imap (fun i x => (i, x)) l.

(** The state of [itertools.cycle(enumerate(l))] after [k] calls of
    [next]: still reading [l] during the first pass, replaying the saved
    items afterwards. *)
Definition cycle_state {A : Type} (l : list A) (k : nat) : Cycle A :=
  if (k <=? length l)%nat
  then mkCycle (Some (mkEnumerate k (drop k l))) (take k (items l)) 0
  else mkCycle None (items l) (k mod length l).

(** ** The characters of a number *)

(** The characters a string accepted by [int] or [float] can hold:
    whitespace, digits, and those of the sign, the underscore, the point,
    the exponent mark and the words [inf], [infinity] and [nan]. *)
Definition number_char (c : ascii) : Prop :=
  Py.is_space c || Py.is_digit c
  || Str.contains (Py.lower c) "_+-.einfinitynan" = true.

(** ** Further observations on a trace *)

(** The labels handed to the display, in order. *)
Fixpoint shown (tr : list Event) : list string :=
  match tr with
  | [] => []
  | EvScroll s _ _ :: tr' => s :: shown tr'
  | _ :: tr' => shown tr'
  end.

(** The debug record [get_value] logs for a reply: the last line, when
    the collaborator succeeded and the line holds a colon. *)
Definition debug_line (r : Reply) : list Event :=
  if negb (returncode r =? 0) then []
  else match last_item (splitlines (stdout r)) with
       | Ok a => if Str.contains ":" a then [EvDebugLine a] else []
       | Raise _ => []
       end.


(** A world whose collaborator answers [r] whatever it is asked. *)
Definition answering (w : World) (r : Reply) : World :=
  mkWorld (utcoffset w) (clock w) (fun _ _ => r) (ticks w) (runs w) (trace w).

(** A text without any line boundary. *)
Definition one_line (l : string) : Prop :=
  Forall (fun c => is_linebreak c = false) (list_ascii_of_string l).

(** The magnitude of a float in tenths, rounded as ["%.1f"] rounds it;
    zero for what is not a finite non-zero number. *)
Definition tenths_of (v : float) : N :=
  match v with
  | S754_finite _ m e => Float.tenths m e
  | _ => 0%N
  end.

(** ** The scroll-in transition, call by call *)

(** [scroll_to] of lines 65 to 75 in full: the calls it makes on the
    display module and on [time.sleep], in order.  [HEIGHT] is the
    display module's constant. *)

Module Display.

(** The calls of [scroll_to] on the display module and on [time], with
    the arguments the code passes; an argument it leaves out is [None]. *)
Inductive Call : Type :=
| WriteString (s : string) (offset_y : option Z) (kerning : bool)
| Show
| ScrollTo (position_y : option Z)
| Sleep (seconds : float).

(** What a call does is the collaborator's business: after the calls
    made so far, the next one returns or raises. *)
Definition Driver : Type := list Call -> Call -> option exn.

(** A computation on the display: from the calls made so far to its
    result and the calls made when it ends. *)
Definition D : Type := list Call -> result unit * list Call.

Definition skip : D := fun h => (Ok tt, h).

Definition call (d : Driver) (c : Call) : D :=
  fun h => (match d h c with Some e => Raise e | None => Ok tt end, (h ++ [c])%list).

Definition and_then (m k : D) : D :=
  fun h => match m h with
           | (Ok _, h') => k h'
           | (Raise e, h') => (Raise e, h')
           end.

(** [range(n)] *)
Definition range (n : Z) : list Z := map Z.of_nat (seq 0 (Z.to_nat n)).

(** [for y in ys: f(y)] *)
Fixpoint for_each (ys : list Z) (f : Z -> D) : D :=
  match ys with
  | [] => skip
  | y :: ys' => and_then (f y) (for_each ys' f)
  end.

Definition scroll_to (HEIGHT : Z) (d : Driver)
    (s : string) (row_spacing : Z) (scroll_wait : float) : D :=
  and_then (call d (WriteString s (Some (HEIGHT + row_spacing)) false))
  (and_then (call d Show)
  (and_then (for_each (range (HEIGHT + row_spacing)) (fun y =>
               and_then (call d (ScrollTo (Some y)))
               (and_then (call d Show)
                         (call d (Sleep scroll_wait)))))
  (and_then (call d (WriteString s None false))
  (and_then (call d (ScrollTo None))
            (call d Show))))).





End Display.

(** * Properties *)

(** ** Strings *)

Lemma repeat_length (c : ascii) (n : nat) : String.length (Str.repeat c n) = n.
Proof. induction n as [|n IH]; simpl; congruence. Qed.

Lemma append_length (a b : string) :
  String.length (a ++ b) = (String.length a + String.length b)%nat.
Proof. induction a as [|c a IH]; simpl; [reflexivity | now rewrite IH]. Qed.

Lemma rjust_length (w : nat) (s : string) :
  String.length (Str.rjust w s) = Nat.max w (String.length s).
Proof.
  unfold Str.rjust. rewrite append_length, repeat_length. lia.
Qed.

Lemma contains_append (c : ascii) (a b : string) :
  Str.contains c (a ++ b) = Str.contains c a || Str.contains c b.
Proof.
  induction a as [|x a IH]; simpl; [reflexivity|].
  rewrite IH. apply orb_assoc.
Qed.

Lemma contains_repeat (c d : ascii) (n : nat) :
  Ascii.eqb d c = false -> Str.contains c (Str.repeat d n) = false.
Proof. intros H. induction n as [|n IH]; simpl; [reflexivity|]. now rewrite H. Qed.

(** A string of decimal digits holds no letter [E]. *)
Lemma contains_E_uint (d : Decimal.uint) :
  Str.contains "E" (NilEmpty.string_of_uint d) = false.
Proof. induction d; simpl; auto. Qed.

Lemma contains_E_digits (n : N) : Str.contains "E" (Str.digits n) = false.
Proof. apply contains_E_uint. Qed.

Lemma contains_E_of_int (z : Z) : Str.contains "E" (Str.of_int z) = false.
Proof.
  destruct z as [|p|p]; unfold Str.of_int; apply contains_E_digits.
Qed.

Lemma contains_E_rjust (w : nat) (s : string) :
  Str.contains "E" s = false -> Str.contains "E" (Str.rjust w s) = false.
Proof.
  intros H. unfold Str.rjust.
  rewrite contains_append, H, contains_repeat; reflexivity.
Qed.

Lemma append_inj (a b c : string) : a ++ b = a ++ c -> b = c.
Proof.
  induction a as [|x a IH]; simpl; intros H; [exact H|].
  injection H as H. now apply IH.
Qed.

(** ** The formatter *)

(** On a non-empty string the test of lines 80 and 82 never raises and is
    the negation of the acceptance rule. *)
Lemma overflows_accepted (r : string) :
  (0 < String.length r)%nat -> overflows r = Ok (negb (Spec.accepted r)).
Proof.
  intros H. unfold overflows, Spec.accepted.
  destruct r as [|c r]; [simpl in H; lia|].
  rewrite Z.leb_antisym.
  destruct (5 <? Str.len (String c r)); simpl; [reflexivity|].
  destruct (Ascii.eqb c " "); simpl; reflexivity.
Qed.

Lemma percent_5_1f_length (v : float) : (5 <= String.length (percent_5_1f v))%nat.
Proof. unfold percent_5_1f. rewrite rjust_length. lia. Qed.

Lemma accepted_length (r : string) :
  (5 <= String.length r)%nat -> Spec.accepted r = true -> String.length r = 5%nat.
Proof.
  unfold Spec.accepted, Str.len. intros H Ha.
  apply andb_true_iff in Ha as [Ha _]. apply Z.leb_le in Ha. lia.
Qed.

Lemma to_int_finite (v : float) :
  Float.is_finite v = true -> Float.to_int v = Ok (Spec.truncate v).
Proof. destruct v; simpl; intros H; try discriminate; reflexivity. Qed.

Lemma percent_5d_finite (v : float) :
  Float.is_finite v = true -> percent_5d v = Ok (Spec.signed_integer v).
Proof.
  intros H. unfold percent_5d. rewrite (to_int_finite v H). reflexivity.
Qed.

Lemma ltb_zero_positive (v : float) : Float.ltb Float.zero v = Spec.positive v.
Proof. destruct v as [s|s| |s m e]; try destruct s; reflexivity. Qed.

(** The code and the three tiers of the specification agree on every
    finite float. *)
Lemma format_refines (v : float) :
  Float.is_finite v = true -> format v = Ok (Spec.three_tiers v).
Proof.
  intros H. unfold format, Spec.three_tiers.
  rewrite overflows_accepted by (pose proof (percent_5_1f_length v); lia).
  destruct (Spec.accepted (percent_5_1f v)); simpl; [reflexivity|].
  rewrite (percent_5d_finite v H). simpl.
  rewrite overflows_accepted
    by (unfold Spec.signed_integer; rewrite rjust_length; lia).
  destruct (Spec.accepted (Spec.signed_integer v)); simpl; [reflexivity|].
  now rewrite ltb_zero_positive.
Qed.

(** Infinities and NaN are accepted by the first tier. *)
Lemma format_not_finite (v : float) :
  Float.is_finite v = false -> format v = Ok (percent_5_1f v).
Proof. destruct v as [s|s| |s m e]; try destruct s; intros H; try discriminate; reflexivity. Qed.

Lemma three_tiers_length (v : float) : String.length (Spec.three_tiers v) = 5%nat.
Proof.
  unfold Spec.three_tiers.
  destruct (Spec.accepted (percent_5_1f v)) eqn:E1.
  - apply accepted_length; [apply percent_5_1f_length | exact E1].
  - destruct (Spec.accepted (Spec.signed_integer v)) eqn:E2.
    + apply accepted_length; [|exact E2].
      unfold Spec.signed_integer. rewrite rjust_length. lia.
    + destruct (Spec.positive v); reflexivity.
Qed.

(** [format] never raises, whatever the float. *)
Lemma format_total (v : float) :
  exists r, format v = Ok r /\ String.length r = 5%nat.
Proof.
  destruct (Float.is_finite v) eqn:E.
  - exists (Spec.three_tiers v). split; [now apply format_refines | apply three_tiers_length].
  - exists (percent_5_1f v). split; [now apply format_not_finite|].
    destruct v as [s|s| |s m e]; try destruct s; try discriminate; reflexivity.
Qed.

(** C3. For every finite [v], [format v] is the three-tier fallback of the
    specification: the one-decimal rendering if it is accepted (width at
    most 5, leading space or minus), else the signed integer rendering
    under the same rule, else [" High"] for a positive [v] and [" Low "]
    otherwise; [format(123456)] is [" High"] and [format(-99999)] is
    [" Low "]. *)
Theorem format_three_tiers (v : float) :
  Float.is_finite v = true ->
  format v =
    Ok (if Spec.accepted (percent_5_1f v) then percent_5_1f v
        else if Spec.accepted (Spec.signed_integer v) then Spec.signed_integer v
        else if Spec.positive v then " High" else " Low ")
  /\ format (Float.of_Z 123456) = Ok " High"
  /\ format (Float.of_Z (-99999)) = Ok " Low ".
Proof.
  intros H. split; [apply (format_refines v H)|].
  split; vm_compute; reflexivity.
Qed.

Lemma format_three_tiers_witness :
  Float.is_finite (Float.of_Z 1234) = true
  /\ format (Float.of_Z 1234) = Ok " 1234".
Proof.
  split; [reflexivity|].
  destruct (format_three_tiers (Float.of_Z 1234) eq_refl) as [H _].
  rewrite H. reflexivity.
Defined.

(** C4. For every finite [v], [format v] returns a string of exactly five
    characters. *)
Theorem format_length_5 (v : float) :
  Float.is_finite v = true ->
  exists r, format v = Ok r /\ String.length r = 5%nat.
Proof. intros _. apply format_total. Qed.

Lemma format_length_5_witness :
  Float.is_finite (Float.of_Z (-1)) = true
  /\ exists r, format (Float.of_Z (-1)) = Ok r /\ String.length r = 5%nat.
Proof.
  split; [reflexivity|].
  apply (format_length_5 (Float.of_Z (-1))). reflexivity.
Defined.

(** ** The environment monad *)

Lemma bind_M {A B : Type} (m : M A) (k : A -> M B) (w : World) :
  (m ≫= k) w = match m w with
               | (Ok a, w') => k a w'
               | (Raise e, w') => (Raise e, w')
               end.
Proof. reflexivity. Qed.

Lemma visits_app (a b : list Event) : visits (a ++ b) = (visits a ++ visits b)%list.
Proof.
  induction a as [|e a IH]; simpl; [reflexivity|].
  destruct e; simpl; now rewrite ?IH.
Qed.

Lemma visits_later (tr : list Event) : Forall later_event tr -> visits tr = [].
Proof.
  induction 1 as [|e tr He _ IH]; simpl; [reflexivity|].
  destruct e; simpl in He; try contradiction; exact IH.
Qed.

(** Equalities between worlds that differ in how their traces are
    bracketed. *)
Ltac world_eq :=
  unfold emit; simpl; rewrite <- ?app_assoc; reflexivity.

(** ** The fetcher *)

(** Whatever it returns or raises, [get_value] runs the collaborator
    exactly once, leaves the clock alone and logs only its own events. *)
Lemma get_value_world (t : Target.t) (rc : option Path) (w : World) :
  exists tr,
    snd (get_value t rc w)
    = mkWorld (utcoffset w) (clock w) (rrdtool w) (ticks w) (S (runs w))
              (trace w ++ tr)
    /\ Forall later_event tr.
Proof.
  unfold get_value. rewrite bind_M. cbn [subprocess_run].
  set (cmd := cmdline t rc).
  set (r := rrdtool w (runs w) cmd).
  destruct (negb (returncode r =? 0)).
  { exists [EvRun cmd r]. split; [world_eq | repeat constructor]. }
  rewrite bind_M. unfold lift at 1.
  destruct (last_item (splitlines (stdout r))) as [a|e].
  2:{ exists [EvRun cmd r]. split; [world_eq | repeat constructor]. }
  destruct (Str.contains ":" a).
  2:{ exists [EvRun cmd r]. split; [world_eq | repeat constructor]. }
  rewrite bind_M. cbn [log].
  destruct (Str.cut ":" a) as [ts v].
  assert (Hq : Forall later_event [EvRun cmd r; EvDebugLine a]) by (repeat constructor).
  destruct (String.eqb v "U").
  { exists [EvRun cmd r; EvDebugLine a]. split; [|exact Hq].
    world_eq. }
  rewrite bind_M. unfold lift at 1.
  destruct (Py.int_of_str ts) as [n|e].
  2:{ exists [EvRun cmd r; EvDebugLine a]. split; [|exact Hq].
      world_eq. }
  rewrite bind_M. unfold datetime_fromtimestamp at 1. cbn [utcoffset emit].
  destruct (Datetime.fromtimestamp (utcoffset w) n) as [d|e].
  2:{ exists [EvRun cmd r; EvDebugLine a]. split; [|exact Hq].
      world_eq. }
  rewrite bind_M. unfold lift at 1.
  destruct (Py.float_of_str v) as [x|e];
    (exists [EvRun cmd r; EvDebugLine a]; split; [|exact Hq];
     world_eq).
Qed.

(** ** One iteration *)

Lemma select_ok (states : States) (i : nat) (s : option State) (w : World) :
  states !! i = Some s ->
  select states i w = (Ok (clock w (ticks w), s), selected i s w).
Proof.
  intros H. unfold select, getitem. rewrite H.
  unfold selected. cbv [mbind M_bind mret M_ret datetime_now lift log].
  f_equal. world_eq.
Qed.

Lemma select_raise (states : States) (i : nat) (w : World) :
  states !! i = None -> fst (select states i w) = Raise IndexError.
Proof. intros H. unfold select, getitem. rewrite H. reflexivity. Qed.

Lemma formatted_ok (v : float) : format v = Ok (formatted v).
Proof.
  unfold formatted. destruct (format_total v) as [r [H _]]. now rewrite H.
Qed.

Lemma render_paced (cfg : Config) (t : Target.t) (now : datetime)
    (s : option State) (w : World) :
  (render cfg t now s ≫= fun _ => time_sleep (row_wait cfg)) w
  = (Ok tt, paced cfg t now s w).
Proof.
  rewrite bind_M. unfold render, paced, label.
  destruct s as [st|].
  - destruct (error_threashold cfg <? Datetime.sub now (at_ st)).
    + cbv [scroll_to time_sleep log]. f_equal. world_eq.
    + rewrite bind_M. unfold lift. rewrite formatted_ok.
      cbv [scroll_to time_sleep log]. f_equal. world_eq.
  - cbv [scroll_to time_sleep log]. f_equal. world_eq.
Qed.

(** One iteration, step by step. *)
Lemma body_steps (cfg : Config) (i : nat) (t : Target.t) (states : States)
    (s : option State) (w : World) :
  states !! i = Some s ->
  body cfg i t states w
  = let now := clock w (ticks w) in
    if older_than (update_interval cfg) now s then
      match get_value t (rrdcache cfg) (selected i s w) with
      | (Ok (Some ns), w2) =>
          (Ok (<[i := Some ns]> states), paced cfg t now (Some ns) w2)
      | (Ok None, w2) => (Ok states, paced cfg t now s w2)
      | (Raise e, w2) => (Raise e, w2)
      end
    else (Ok states, paced cfg t now s (selected i s w)).
Proof.
  intros H. unfold body. rewrite bind_M, (select_ok _ _ _ _ H).
  cbv zeta. rewrite bind_M. unfold maybe_refresh.
  destruct (older_than (update_interval cfg) (clock w (ticks w)) s).
  - rewrite bind_M.
    destruct (get_value t (rrdcache cfg) (selected i s w)) as [[[ns|]|e] w2].
    + rewrite bind_M. unfold lift, setitem.
      destruct (Nat.ltb_spec i (length states)) as [_|L];
        [|apply lookup_lt_Some in H; lia].
      cbv [mret M_ret]. rewrite bind_M.
      pose proof (render_paced cfg t (clock w (ticks w)) (Some ns) w2) as Hr.
      rewrite bind_M in Hr.
      destruct (render cfg t (clock w (ticks w)) (Some ns) w2) as [[[]|e] w3];
        [|discriminate Hr].
      rewrite bind_M, Hr. reflexivity.
    + cbv [mret M_ret]. rewrite bind_M.
      pose proof (render_paced cfg t (clock w (ticks w)) s w2) as Hr.
      rewrite bind_M in Hr.
      destruct (render cfg t (clock w (ticks w)) s w2) as [[[]|e] w3];
        [|discriminate Hr].
      rewrite bind_M, Hr. reflexivity.
    + reflexivity.
  - cbv [mret M_ret]. rewrite bind_M.
    pose proof (render_paced cfg t (clock w (ticks w)) s (selected i s w)) as Hr.
    rewrite bind_M in Hr.
    destruct (render cfg t (clock w (ticks w)) s (selected i s w)) as [[[]|e] w3];
      [|discriminate Hr].
    rewrite bind_M, Hr. reflexivity.
Qed.

Lemma body_world (cfg : Config) (i : nat) (t : Target.t) (states : States)
    (s : option State) (w : World) :
  states !! i = Some s ->
  exists tr,
    snd (body cfg i t states w)
    = mkWorld (utcoffset w) (clock w) (rrdtool w) (S (ticks w))
              (if older_than (update_interval cfg) (clock w (ticks w)) s
               then S (runs w) else runs w)
              (trace w ++ EvNow (clock w (ticks w)) :: EvDebugState i s :: tr)
    /\ Forall later_event tr.
Proof.
  intros H. rewrite (body_steps _ _ _ _ _ _ H). cbv zeta.
  destruct (older_than (update_interval cfg) (clock w (ticks w)) s).
  - destruct (get_value_world t (rrdcache cfg) (selected i s w)) as [tr [Hw Htr]].
    destruct (get_value t (rrdcache cfg) (selected i s w)) as [[[ns|]|e] w2];
      simpl in Hw; subst w2.
    + eexists (tr ++ [_; _])%list. split; [unfold paced, selected; world_eq|].
      apply Forall_app. split; [exact Htr | repeat constructor].
    + eexists (tr ++ [_; _])%list. split; [unfold paced, selected; world_eq|].
      apply Forall_app. split; [exact Htr | repeat constructor].
    + exists tr. split; [unfold selected; world_eq | exact Htr].
  - eexists [_; _]. split; [unfold paced, selected; world_eq | repeat constructor].
Qed.

(** C2. When the fetch of an iteration returns [None], the iteration ends
    normally and the list of stored readings is the one it started with:
    the reading of the target is kept, field by field. *)
Theorem failed_fetch_keeps_reading (cfg : Config) (i : nat) (t : Target.t)
    (states : States) (s : option State) (w w2 : World) :
  states !! i = Some s ->
  older_than (update_interval cfg) (clock w (ticks w)) s = true ->
  get_value t (rrdcache cfg) (selected i s w) = (Ok None, w2) ->
  body cfg i t states w = (Ok states, paced cfg t (clock w (ticks w)) s w2).
Proof.
  intros H Hdue Hget.
  rewrite (body_steps _ _ _ _ _ _ H). cbv zeta. now rewrite Hdue, Hget.
Qed.

Lemma failed_fetch_keeps_reading_witness :
  let states := [Some (Sample.reading 301)] in
  let w := Sample.world Sample.instant (mkReply 1 "") in
  fst (body Sample.config 0 Sample.target states w) = Ok states.
Proof.
  intros states w.
  rewrite (failed_fetch_keeps_reading Sample.config 0 Sample.target states
             (Some (Sample.reading 301)) w
             (snd (get_value Sample.target None (selected 0 (Some (Sample.reading 301)) w)))
             eq_refl eq_refl eq_refl).
  reflexivity.
Defined.

(** C7. In every iteration a fetch is attempted iff the target has no
    stored reading or its reading is older than the update interval,
    strictly: with an interval of 300 s a reading aged 301 s is
    re-fetched and one aged 299 s is not. *)
Theorem refresh_iff_due (cfg : Config) (i : nat) (t : Target.t)
    (states : States) (s : option State) (w : World) :
  states !! i = Some s ->
  let now := clock w (ticks w) in
  let w' := snd (body cfg i t states w) in
  (runs w' = S (runs w) <->
     s = None \/
     exists st, s = Some st /\ update_interval cfg < Datetime.sub now (at_ st))
  /\ (runs w' = runs w <->
       exists st, s = Some st /\ Datetime.sub now (at_ st) <= update_interval cfg)
  /\ (forall st, s = Some st -> update_interval cfg = Datetime.seconds 300 ->
       Datetime.sub now (at_ st) = Datetime.seconds 301 -> runs w' = S (runs w))
  /\ (forall st, s = Some st -> update_interval cfg = Datetime.seconds 300 ->
       Datetime.sub now (at_ st) = Datetime.seconds 299 -> runs w' = runs w).
Proof.
  intros H now w'.
  destruct (body_world cfg i t states s w H) as [tr [Hw _]].
  fold w' now in Hw.
  assert (Hr : runs w' = if older_than (update_interval cfg) now s
                         then S (runs w) else runs w) by now rewrite Hw.
  clear Hw. unfold older_than in Hr.
  assert (A : runs w' = S (runs w) <->
     s = None \/
     exists st, s = Some st /\ update_interval cfg < Datetime.sub now (at_ st)).
  { destruct s as [st|].
    - destruct (Z.ltb_spec (update_interval cfg) (Datetime.sub now (at_ st))).
      + split; [intros _; right; eauto | intros _; exact Hr].
      + split; [lia|]. intros [?|[st' [E ?]]]; [discriminate|].
        injection E as <-. lia.
    - split; [intros _; now left | intros _; exact Hr]. }
  assert (B : runs w' = runs w <->
     exists st, s = Some st /\ Datetime.sub now (at_ st) <= update_interval cfg).
  { destruct s as [st|].
    - destruct (Z.ltb_spec (update_interval cfg) (Datetime.sub now (at_ st))).
      + split; [lia|]. intros [st' [E ?]]. injection E as <-. lia.
      + split; [intros _; eauto | intros _; exact Hr].
    - split; [lia|]. intros [st' [E _]]. discriminate. }
  split; [exact A|]. split; [exact B|]. split.
  - intros st -> Hi Ha. apply A. right. exists st. split; [reflexivity|].
    rewrite Hi, Ha. reflexivity.
  - intros st -> Hi Ha. apply B. exists st. split; [reflexivity|].
    rewrite Hi, Ha. discriminate.
Qed.

Lemma refresh_iff_due_witness :
  let w := Sample.world Sample.instant (mkReply 0 "1699999999:21.5") in
  runs (snd (body Sample.config 0 Sample.target [Some (Sample.reading 301)] w)) = 1%nat
  /\ runs (snd (body Sample.config 0 Sample.target [Some (Sample.reading 299)] w)) = 0%nat.
Proof.
  intros w. split.
  - apply (refresh_iff_due Sample.config 0 Sample.target
             [Some (Sample.reading 301)] (Some (Sample.reading 301)) w eq_refl).
    right. exists (Sample.reading 301). split; reflexivity.
  - apply (refresh_iff_due Sample.config 0 Sample.target
             [Some (Sample.reading 299)] (Some (Sample.reading 299)) w eq_refl).
    exists (Sample.reading 299). split; [reflexivity | discriminate].
Defined.

(** ** The label *)

Lemma contains_E_fixed1 (v : float) : Str.contains "E" (Float.fixed1 v) = false.
Proof.
  destruct v as [s|s| |s m e]; try destruct s; try reflexivity;
    unfold Float.fixed1; cbv zeta;
    rewrite !contains_append, !contains_E_digits; reflexivity.
Qed.

(** No text that [format] returns holds the letter [E]; none is the
    error text. *)
Lemma contains_E_formatted (v : float) : Str.contains "E" (formatted v) = false.
Proof.
  unfold formatted. destruct (Float.is_finite v) eqn:F.
  - rewrite (format_refines v F). unfold Spec.three_tiers.
    destruct (Spec.accepted (percent_5_1f v)).
    + apply contains_E_rjust, contains_E_fixed1.
    + destruct (Spec.accepted (Spec.signed_integer v)).
      * apply contains_E_rjust, contains_E_of_int.
      * destruct (Spec.positive v); reflexivity.
  - rewrite (format_not_finite v F).
    apply contains_E_rjust, contains_E_fixed1.
Qed.

Lemma formatted_length (v : float) : String.length (formatted v) = 5%nat.
Proof.
  unfold formatted. destruct (format_total v) as [r [H L]]. now rewrite H.
Qed.

Lemma render_ok (cfg : Config) (t : Target.t) (now : datetime)
    (s : option State) (w : World) :
  render cfg t now s w
  = (Ok tt, emit (EvScroll (label cfg t now s) (row_spacing cfg) (scroll_wait cfg)) w).
Proof.
  unfold render, label. destruct s as [st|]; [|reflexivity].
  destruct (error_threashold cfg <? Datetime.sub now (at_ st)); [reflexivity|].
  rewrite bind_M. unfold lift. rewrite formatted_ok. reflexivity.
Qed.

Lemma label_error_iff (cfg : Config) (t : Target.t) (now : datetime)
    (s : option State) :
  label cfg t now s = Target.symbol t ++ " ERR " <->
  s = None \/
  exists st, s = Some st /\ error_threashold cfg < Datetime.sub now (at_ st).
Proof.
  unfold label. destruct s as [st|].
  - destruct (Z.ltb_spec (error_threashold cfg) (Datetime.sub now (at_ st))) as [L|L].
    + split; [intros _; right; eauto | reflexivity].
    + split.
      * intros E. apply append_inj in E.
        pose proof (contains_E_formatted (Float.mul (value st) (Target.scale t))) as C.
        rewrite E in C. discriminate C.
      * intros [?|[st' [E ?]]]; [discriminate|]. injection E as <-. lia.
  - split; [intros _; now left | reflexivity].
Qed.

(** The targets of the command line, built by [Target.of], have a symbol
    of one character. *)
Lemma of_symbol_length (a : string) (t : Target.t) :
  Target.of_ a = Ok t -> String.length (Target.symbol t) = 1%nat.
Proof.
  unfold Target.of_.
  destruct (Str.splitn "," 2 a) as [|y [|p [|f [|g l]]]]; try discriminate.
  - unfold Str.len. destruct (Z.eqb_spec (Z.of_nat (String.length y)) 1) as [E|E];
      [|discriminate]. intros [= <-]. simpl. lia.
  - unfold Str.len. destruct (Z.eqb_spec (Z.of_nat (String.length y)) 1) as [E|E];
      [|discriminate]. simpl. destruct (Py.float_of_str f); [|discriminate].
    intros [= <-]. simpl. lia.
Qed.

(** C6. After the maybe-refresh step, with the optional reading [s] and
    the time [now] of the iteration, the label shown is the symbol
    followed by [" ERR "] iff [s] is absent or older than the error
    threshold, and otherwise the symbol followed by the formatted scaled
    value; either way it has six characters. With a threshold of 1800 s a
    reading aged 1801 s shows the error text and one aged 1799 s its
    value. *)
Theorem render_error_or_value (cfg : Config) (t : Target.t) (now : datetime)
    (s : option State) (w : World) :
  String.length (Target.symbol t) = 1%nat ->
  exists l,
    render cfg t now s w
    = (Ok tt, emit (EvScroll l (row_spacing cfg) (scroll_wait cfg)) w)
    /\ String.length l = 6%nat
    /\ (l = Target.symbol t ++ " ERR " <->
         s = None \/
         exists st, s = Some st /\ error_threashold cfg < Datetime.sub now (at_ st))
    /\ (forall st, s = Some st ->
         Datetime.sub now (at_ st) <= error_threashold cfg ->
         exists r, format (Float.mul (value st) (Target.scale t)) = Ok r
                   /\ l = Target.symbol t ++ r)
    /\ (forall st, s = Some st -> error_threashold cfg = Datetime.seconds 1800 ->
         Datetime.sub now (at_ st) = Datetime.seconds 1801 ->
         l = Target.symbol t ++ " ERR ")
    /\ (forall st, s = Some st -> error_threashold cfg = Datetime.seconds 1800 ->
         Datetime.sub now (at_ st) = Datetime.seconds 1799 ->
         exists r, format (Float.mul (value st) (Target.scale t)) = Ok r
                   /\ l = Target.symbol t ++ r).
Proof.
  intros Hsym. exists (label cfg t now s).
  assert (V : forall st, s = Some st ->
     Datetime.sub now (at_ st) <= error_threashold cfg ->
     exists r, format (Float.mul (value st) (Target.scale t)) = Ok r
               /\ label cfg t now s = Target.symbol t ++ r).
  { intros st -> L. eexists. split; [apply formatted_ok|].
    unfold label.
    destruct (Z.ltb_spec (error_threashold cfg) (Datetime.sub now (at_ st)));
      [lia | reflexivity]. }
  split; [apply render_ok|]. split; [|split; [apply label_error_iff|split; [exact V|split]]].
  - unfold label. destruct s as [st|].
    + destruct (error_threashold cfg <? Datetime.sub now (at_ st));
        rewrite append_length, Hsym, ?formatted_length; reflexivity.
    + rewrite append_length, Hsym. reflexivity.
  - intros st E Ht Ha. apply label_error_iff. right. exists st.
    split; [exact E|]. rewrite Ht, Ha. reflexivity.
  - intros st E Ht Ha. apply (V st E). rewrite Ht, Ha. discriminate.
Qed.

Lemma render_error_or_value_witness :
  let w := Sample.world Sample.instant (mkReply 0 "") in
  exists l,
    render Sample.config Sample.target (Datetime.mk Sample.instant)
           (Some (Sample.reading 1799)) w
    = (Ok tt, emit (EvScroll l 4 (Float.of_ratio false 1 10)) w)
    /\ l = "t 21.0".
Proof.
  intros w.
  destruct (render_error_or_value Sample.config Sample.target
              (Datetime.mk Sample.instant) (Some (Sample.reading 1799)) w eq_refl)
    as [l [R [_ [_ [_ [_ V]]]]]].
  exists l. split; [exact R|].
  destruct (V (Sample.reading 1799) eq_refl eq_refl eq_refl) as [r [F ->]].
  vm_compute in F. injection F as <-. reflexivity.
Defined.

(** C10. An iteration samples the clock once, before any fetch, and both
    the refresh test and the error test read that sample: when the fetch
    succeeds with a reading whose time lies more than the error threshold
    before the sample, the iteration stores the reading and still shows
    the error text. *)
Theorem stale_fetch_shows_error (cfg : Config) (i : nat) (t : Target.t)
    (states : States) (s : option State) (w : World) :
  states !! i = Some s ->
  let now := clock w (ticks w) in
  (exists tr,
     trace (snd (body cfg i t states w))
     = (trace w ++ EvNow now :: EvDebugState i s :: tr)%list
     /\ Forall later_event tr)
  /\ ticks (snd (body cfg i t states w)) = S (ticks w)
  /\ (forall ns w2,
       older_than (update_interval cfg) now s = true ->
       get_value t (rrdcache cfg) (selected i s w) = (Ok (Some ns), w2) ->
       error_threashold cfg < Datetime.sub now (at_ ns) ->
       body cfg i t states w
       = (Ok (<[i := Some ns]> states),
          mkWorld (utcoffset w2) (clock w2) (rrdtool w2) (ticks w2) (runs w2)
                  (trace w2 ++ [EvScroll (Target.symbol t ++ " ERR ")
                                         (row_spacing cfg) (scroll_wait cfg);
                                EvSleep (row_wait cfg)]))).
Proof.
  intros H now.
  destruct (body_world cfg i t states s w H) as [tr [Hw Htr]].
  split; [exists tr; split; [now rewrite Hw | exact Htr]|].
  split; [now rewrite Hw|].
  intros ns w2 Hdue Hget Hold.
  rewrite (body_steps _ _ _ _ _ _ H). cbv zeta. fold now.
  rewrite Hdue, Hget. unfold paced, label. cbn [at_].
  destruct (Z.ltb_spec (error_threashold cfg) (Datetime.sub now (at_ ns)));
    [reflexivity | lia].
Qed.

Lemma stale_fetch_shows_error_witness :
  let w := Sample.world Sample.instant (mkReply 0 "1699990000:21.5") in
  exists w',
    body Sample.config 0 Sample.target [None] w
    = (Ok [Some (mkState (Datetime.mk 1699990000000000)
                         (Float.of_ratio false 215 10))], w')
    /\ visits (trace w') = [0%nat]
    /\ trace w' !! 4%nat
        = Some (EvScroll "t ERR " 4 (Float.of_ratio false 1 10)).
Proof.
  intros w.
  destruct (stale_fetch_shows_error Sample.config 0 Sample.target [None] None w
              eq_refl) as [_ [_ B]].
  eexists. split; [|split].
  - apply (B (mkState (Datetime.mk 1699990000000000) (Float.of_ratio false 215 10))
             (snd (get_value Sample.target None (selected 0 None w)))
             eq_refl).
    + vm_compute. reflexivity.
    + reflexivity.
  - reflexivity.
  - reflexivity.
Defined.

(** ** The cyclic order *)

Lemma mod_succ (k n : nat) :
  n <> 0%nat ->
  (S k mod n = if (n <=? S (k mod n))%nat then 0 else S (k mod n))%nat.
Proof.
  intros Hn. pose proof (Nat.mod_upper_bound k n Hn) as Hb.
  pose proof (Nat.div_mod_eq k n) as E.
  destruct (Nat.leb_spec n (S (k mod n))) as [L|L]; symmetry.
  - apply (Nat.mod_unique _ _ (S (k / n))); [lia|]. rewrite Nat.mul_succ_r. lia.
  - apply (Nat.mod_unique _ _ (k / n)); lia.
Qed.

Section Iterator.

Context {A : Type}.
Variable l : list A.

Lemma items_lookup (i : nat) (x : A) :
  l !! i = Some x -> items l !! i = Some (i, x).
Proof. intros H. unfold items. now rewrite list_lookup_imap, H. Qed.

Lemma items_length : length (items l) = length l.
Proof. apply length_imap. Qed.

Lemma cycle_start : cycle (enumerate l) = cycle_state l 0.
Proof. reflexivity. Qed.

(** Each call of [next] yields the item at the position modulo the
    length and moves to the next position. *)
Lemma cycle_next_state (k : nat) (x : A) :
  l !! (k mod length l)%nat = Some x ->
  cycle_next (cycle_state l k)
  = Some ((k mod length l, x)%nat, cycle_state l (S k)).
Proof.
  intros H.
  assert (Hn : length l <> 0%nat).
  { intros E. apply lookup_lt_Some in H. lia. }
  unfold cycle_state at 1.
  destruct (Nat.leb_spec k (length l)) as [L|L].
  - destruct (Nat.eq_dec k (length l)) as [->|Hk].
    + rewrite Nat.Div0.mod_same in *.
      unfold cycle_next, enumerate_next. cbn [cy_it en_rest cy_saved cy_index].
      rewrite drop_ge by lia.
      rewrite take_ge by (rewrite items_length; lia).
      unfold cycle_replay. rewrite (items_lookup 0 x H), items_length.
      unfold cycle_state.
      destruct (Nat.leb_spec (S (length l)) (length l)) as [?|_]; [lia|].
      rewrite (mod_succ _ _ Hn), Nat.Div0.mod_same. reflexivity.
    + assert (Hlt : (k < length l)%nat) by lia.
      rewrite (Nat.mod_small _ _ Hlt) in *.
      unfold cycle_next, enumerate_next. cbn [cy_it en_rest cy_saved cy_index en_count].
      rewrite (drop_S _ _ _ H).
      unfold cycle_state.
      destruct (Nat.leb_spec (S k) (length l)) as [_|?]; [|lia].
      rewrite (take_S_r _ _ _ (items_lookup k x H)). reflexivity.
  - unfold cycle_next. cbn [cy_it cy_saved cy_index].
    unfold cycle_replay. rewrite (items_lookup _ x H), items_length.
    unfold cycle_state.
    destruct (Nat.leb_spec (S k) (length l)) as [?|_]; [lia|].
    rewrite (mod_succ _ _ Hn). reflexivity.
Qed.

Lemma cycle_next_empty : l = [] -> cycle_next (cycle (enumerate l)) = None.
Proof. intros ->. reflexivity. Qed.

Lemma lookup_mod (k : nat) :
  l <> [] -> exists x, l !! (k mod length l)%nat = Some x.
Proof.
  intros Hl. apply lookup_lt_is_Some_2, Nat.mod_upper_bound.
  destruct l; [congruence | simpl; lia].
Qed.

Lemma cycle_nth_state (k j : nat) :
  cycle_nth k (cycle_state l j)
  = (fun x => ((j + k) mod length l, x)%nat) <$> l !! ((j + k) mod length l)%nat.
Proof.
  destruct (decide (l = [])) as [->|Hl].
  { destruct k, j; reflexivity. }
  revert j. induction k as [|k IH]; intros j.
  - rewrite Nat.add_0_r. destruct (lookup_mod j Hl) as [x Hx].
    cbn [cycle_nth]. rewrite (cycle_next_state j x Hx), Hx. reflexivity.
  - destruct (lookup_mod j Hl) as [x Hx].
    cbn [cycle_nth]. rewrite (cycle_next_state j x Hx), IH.
    now rewrite Nat.add_succ_r.
Qed.

End Iterator.

Lemma body_length (cfg : Config) (i : nat) (t : Target.t) (states states' : States)
    (s : option State) (w : World) :
  states !! i = Some s ->
  fst (body cfg i t states w) = Ok states' ->
  length states' = length states.
Proof.
  intros H. rewrite (body_steps _ _ _ _ _ _ H). cbv zeta.
  destruct (older_than _ _ _).
  - destruct (get_value _ _ _) as [[[ns|]|e] w2]; simpl; intros E;
      try discriminate; injection E as <-; [apply length_insert | reflexivity].
  - simpl. intros E. injection E as <-. reflexivity.
Qed.

Lemma body_visits (cfg : Config) (i : nat) (t : Target.t) (states : States)
    (s : option State) (w : World) :
  states !! i = Some s ->
  visits (trace (snd (body cfg i t states w))) = (visits (trace w) ++ [i])%list.
Proof.
  intros H. destruct (body_world cfg i t states s w H) as [tr [-> Htr]].
  cbn [trace]. rewrite visits_app. cbn [visits].
  now rewrite (visits_later _ Htr).
Qed.

(** The loop from any position on: the indices handled are the positions
    modulo the number of targets, and all [n] iterations are run unless
    one raises. *)
Lemma loop_visits (cfg : Config) (targets : list Target.t) (n : nat) :
  targets <> [] ->
  forall (k : nat) (states : States) (w : World),
    length states = length targets ->
    exists m, (m <= n)%nat
      /\ visits (trace (snd (loop n cfg (cycle_state targets k) states w)))
          = (visits (trace w)
             ++ map (fun j => (j mod length targets)%nat) (seq k m))%list
      /\ ((exists e, fst (loop n cfg (cycle_state targets k) states w) = Raise e)
           \/ m = n).
Proof.
  intros Ht. induction n as [|n IH]; intros k states w Hlen.
  { exists 0%nat. cbn. rewrite app_nil_r. auto. }
  destruct (lookup_mod targets k Ht) as [t Hk].
  cbn [loop]. rewrite (cycle_next_state targets k t Hk).
  set (i := (k mod length targets)%nat) in *.
  assert (Hi : (i < length states)%nat).
  { rewrite Hlen. apply lookup_lt_Some in Hk. exact Hk. }
  destruct (lookup_lt_is_Some_2 states i Hi) as [s Hs].
  rewrite bind_M.
  pose proof (body_visits cfg i t states s w Hs) as Hv.
  pose proof (body_length cfg i t states) as Hl.
  destruct (body cfg i t states w) as [[states'|e] w'] eqn:Hb; cbn [fst snd] in *.
  - destruct (IH (S k) states' w') as [m [Hm [Hvs Hdone]]].
    { rewrite (Hl states' s w Hs); [exact Hlen|]. now rewrite Hb. }
    exists (S m). split; [lia|]. split.
    + rewrite Hvs, Hv, <- app_assoc. reflexivity.
    + destruct Hdone as [Hr| ->]; [left; exact Hr | now right].
  - exists 1%nat. split; [lia|]. split; [exact Hv | left; eauto].
Qed.

(** C9. The loop handles the targets in cyclic order from index 0: the
    [k]-th item its iterator yields is target [k mod N] with that index,
    and the indices handled by the first iterations of [main] are
    [0 mod N], [1 mod N], and so on, for as long as the loop runs. *)
Theorem round_robin_order (n : nat) (cfg : Config) (targets : list Target.t)
    (w : World) :
  (forall k : nat,
     cycle_nth k (cycle (enumerate targets))
     = (fun t => ((k mod length targets)%nat, t))
         <$> targets !! (k mod length targets)%nat)
  /\ exists m, (m <= n)%nat
       /\ visits (trace (snd (main n cfg targets w)))
           = (visits (trace w)
              ++ map (fun k => (k mod length targets)%nat) (seq 0 m))%list
       /\ (targets = []
            \/ (exists e, fst (main n cfg targets w) = Raise e)
            \/ m = n).
Proof.
  split.
  - intros k. rewrite cycle_start. apply (cycle_nth_state targets k 0).
  - unfold main. cbv zeta. rewrite bind_M. cbn [set_brightness log].
    set (w1 := emit (EvBrightness (brightness cfg)) w).
    assert (Hw : visits (trace w1) = visits (trace w)).
    { unfold w1, emit. cbn [trace]. rewrite visits_app. apply app_nil_r. }
    rewrite <- Hw. destruct (decide (targets = [])) as [->|Ht].
    + exists 0%nat. split; [lia|]. split; [|now left].
      destruct n; cbn; now rewrite app_nil_r.
    + rewrite cycle_start.
      destruct (loop_visits cfg targets n Ht 0 (replicate (length targets) None) w1)
        as [m [Hm [Hv Hd]]]; [apply length_replicate|].
      exists m. auto.
Qed.

Lemma round_robin_order_witness :
  let targets := [Sample.target; Target.mk "u" (mkPath "y.rrd") Float.one] in
  let w := Sample.world Sample.instant (mkReply 0 "1699999999:21.5") in
  visits (trace (snd (main 5 Sample.config targets w))) = [0; 1; 0; 1; 0]%nat.
Proof.
  intros targets w.
  destruct (round_robin_order 5 Sample.config targets w) as [_ [m [_ [Hv Hd]]]].
  rewrite Hv.
  destruct Hd as [E|[[e E]| ->]]; [discriminate E | | reflexivity].
  vm_compute in E. discriminate E.
Defined.

(** ** The number parsers *)

Lemma number_char_space (c : ascii) : Py.is_space c = true -> number_char c.
Proof. unfold number_char. now intros ->. Qed.

Lemma number_char_digit (c : ascii) : Py.is_digit c = true -> number_char c.
Proof. unfold number_char. intros ->. now rewrite orb_true_r. Qed.

Lemma number_char_mark (c : ascii) :
  Str.contains (Py.lower c) "_+-.einfinitynan" = true -> number_char c.
Proof. unfold number_char. intros ->. now rewrite orb_true_r. Qed.

Lemma number_char_eqb (c d : ascii) :
  Ascii.eqb c d = true -> number_char d -> number_char c.
Proof. intros E. apply Ascii.eqb_eq in E. now subst. Qed.

Lemma lstrip_chars (l : list ascii) :
  Forall number_char (Py.lstrip l) -> Forall number_char l.
Proof.
  induction l as [|c l IH]; simpl; [auto|].
  destruct (Py.is_space c) eqn:E; [|auto].
  intros H. constructor; [now apply number_char_space | now apply IH].
Qed.

Lemma strip_chars (l : list ascii) :
  Forall number_char (Py.strip l) -> Forall number_char l.
Proof.
  unfold Py.strip. intros H.
  apply lstrip_chars. apply Forall_rev in H. rewrite rev_involutive in H.
  apply lstrip_chars in H. apply Forall_rev in H. now rewrite rev_involutive in H.
Qed.

Lemma sign_chars (l l' : list ascii) (b : bool) :
  Py.sign l = (b, l') -> Forall number_char l' -> Forall number_char l.
Proof.
  unfold Py.sign. destruct l as [|c l0]; [now intros [= _ <-]|].
  destruct (Ascii.eqb c "+") eqn:E1.
  { intros [= _ <-] H. constructor; [|exact H].
    apply (number_char_eqb _ _ E1). now apply number_char_mark. }
  destruct (Ascii.eqb c "-") eqn:E2.
  { intros [= _ <-] H. constructor; [|exact H].
    apply (number_char_eqb _ _ E2). now apply number_char_mark. }
  now intros [= _ <-].
Qed.

Lemma digitpart_chars (l : list ascii) (ds : list Z) (r : list ascii) :
  Py.digitpart l = (ds, r) -> Forall number_char r -> Forall number_char l.
Proof.
  remember (S (length l)) as n eqn:Hn.
  assert (Hlt : (length l < n)%nat) by lia. clear Hn.
  revert l ds r Hlt. induction n as [|n IH]; intros l ds r Hlt; [lia|].
  destruct l as [|c l']; [now intros [= _ <-]|].
  cbn [Py.digitpart]. destruct (Py.is_digit c) eqn:D; [|now intros [= _ <-]].
  assert (Hc : number_char c) by now apply number_char_digit.
  simpl in Hlt.
  assert (Tail : forall ds' r', Py.digitpart l' = (ds', r') ->
            Forall number_char r' -> Forall number_char (c :: l')).
  { intros ds' r' E H. constructor; [exact Hc|]. apply (IH l' ds' r'); [lia|exact E|exact H]. }
  destruct l' as [|u [|d l'']].
  - destruct (Py.digitpart []) as [ds' r'] eqn:E. intros [= _ <-]. eauto.
  - destruct (Py.digitpart [u]) as [ds' r'] eqn:E. intros [= _ <-]. eauto.
  - destruct (Ascii.eqb u "_" && Py.is_digit d) eqn:U.
    + destruct (Py.digitpart (d :: l'')) as [ds' r'] eqn:E. intros [= _ <-] H.
      apply andb_true_iff in U as [U _].
      constructor; [exact Hc|]. constructor.
      * apply (number_char_eqb _ _ U). now apply number_char_mark.
      * apply (IH (d :: l'') ds' r'); [simpl in *; lia | exact E | exact H].
    + destruct (Py.digitpart (u :: d :: l'')) as [ds' r'] eqn:E. intros [= _ <-]. eauto.
Qed.

Lemma exponent_chars (l r : list ascii) (e : Z) :
  Py.exponent l = (e, r) -> Forall number_char r -> Forall number_char l.
Proof.
  unfold Py.exponent. destruct l as [|c l']; [now intros [= _ <-]|].
  destruct (Ascii.eqb (Py.lower c) "e") eqn:E; [|now intros [= _ <-]].
  destruct (Py.sign l') as [neg l''] eqn:S.
  destruct (Py.digitpart l'') as [[|d ds] r'] eqn:D; [now intros [= _ <-]|].
  intros [= _ <-] H. constructor.
  - apply number_char_mark. apply Ascii.eqb_eq in E. now rewrite E.
  - apply (sign_chars _ _ _ S). apply (digitpart_chars _ _ _ D H).
Qed.

Lemma word_chars (l : list ascii) (w : string) :
  String.eqb (string_of_list_ascii (map Py.lower l)) w = true ->
  Forall (fun c => Str.contains c "_+-.einfinitynan" = true) (list_ascii_of_string w) ->
  Forall number_char l.
Proof.
  intros E H. apply String.eqb_eq in E.
  apply (f_equal list_ascii_of_string) in E.
  rewrite list_ascii_of_string_of_list_ascii in E. rewrite <- E in H.
  clear E. induction l as [|c l IH]; [constructor|].
  inversion H as [|? ? Hc Hl]; subst.
  constructor; [now apply number_char_mark | now apply IH].
Qed.

(** Every character of a string [float] accepts is a number character. *)
Lemma float_of_str_chars (s : string) (x : float) :
  Py.float_of_str s = Ok x -> Forall number_char (list_ascii_of_string s).
Proof.
  unfold Py.float_of_str. intros H. apply strip_chars.
  destruct (Py.sign (Py.strip (list_ascii_of_string s))) as [neg l] eqn:S.
  apply (sign_chars _ _ _ S). clear S.
  destruct (String.eqb (string_of_list_ascii (map Py.lower l)) "inf") eqn:W1.
  { apply (word_chars _ _ W1). repeat constructor. }
  destruct (String.eqb (string_of_list_ascii (map Py.lower l)) "infinity") eqn:W2.
  { apply (word_chars _ _ W2). repeat constructor. }
  destruct (String.eqb (string_of_list_ascii (map Py.lower l)) "nan") eqn:W3.
  { apply (word_chars _ _ W3). repeat constructor. }
  cbn [orb] in H.
  destruct (Py.digitpart l) as [ip l1] eqn:D1.
  apply (digitpart_chars _ _ _ D1).
  assert (Rest : forall fp l2,
            match (ip ++ fp)%list with
            | [] => Raise ValueError
            | _ :: _ =>
                match Py.exponent l2 with
                | (e, []) =>
                    Ok (Py.decimal neg (Py.number (ip ++ fp))
                          (e - Z.of_nat (length fp)))
                | (_, _ :: _) => Raise ValueError
                end
            end = Ok x -> Forall number_char l2).
  { intros fp l2 E. destruct (ip ++ fp)%list; [discriminate|].
    destruct (Py.exponent l2) as [e [|c r]] eqn:X; [|discriminate].
    apply (exponent_chars _ _ _ X). constructor. }
  destruct l1 as [|c l1'].
  - apply (Rest [] []). exact H.
  - destruct (Ascii.eqb c ".") eqn:P.
    + destruct (Py.digitpart l1') as [fp l2] eqn:D2.
      constructor.
      * apply (number_char_eqb _ _ P). now apply number_char_mark.
      * apply (digitpart_chars _ _ _ D2). apply (Rest fp l2). exact H.
    + apply (Rest [] (c :: l1')). exact H.
Qed.

(** Every character of a string [int] accepts is a number character. *)
Lemma int_of_str_chars (s : string) (n : Z) :
  Py.int_of_str s = Ok n -> Forall number_char (list_ascii_of_string s).
Proof.
  unfold Py.int_of_str. intros H. apply strip_chars.
  destruct (Py.sign (Py.strip (list_ascii_of_string s))) as [neg l] eqn:S.
  apply (sign_chars _ _ _ S).
  destruct (Py.digitpart l) as [[|d ds] [|c r]] eqn:D; try discriminate.
  apply (digitpart_chars _ _ _ D). constructor.
Qed.

Lemma contains_chars (c : ascii) (s : string) :
  Forall number_char (list_ascii_of_string s) -> ~ number_char c ->
  Str.contains c s = false.
Proof.
  intros H Hc. induction s as [|a s IH]; simpl; [reflexivity|].
  inversion H as [|? ? Ha Hs]; subst.
  destruct (Ascii.eqb a c) eqn:E.
  - apply Ascii.eqb_eq in E. now subst.
  - now apply IH.
Qed.

Lemma float_of_str_no_comma (s : string) (x : float) :
  Py.float_of_str s = Ok x -> Str.contains "," s = false.
Proof.
  intros H. apply contains_chars; [now apply (float_of_str_chars s x)|].
  unfold number_char. cbn. discriminate.
Qed.

Lemma int_of_str_no_colon (s : string) (n : Z) :
  Py.int_of_str s = Ok n -> Str.contains ":" s = false.
Proof.
  intros H. apply contains_chars; [now apply (int_of_str_chars s n)|].
  unfold number_char. cbn. discriminate.
Qed.

(** ** The target descriptor *)

Lemma fields_cons (s : string) : exists f fs, Spec.fields s = f :: fs.
Proof.
  destruct s as [|a s]; simpl; [eauto|].
  destruct (Ascii.eqb a ","); [eauto|]. destruct (Spec.fields s); eauto.
Qed.

Lemma fields_no_comma (s : string) :
  Str.contains "," s = false -> Spec.fields s = [s].
Proof.
  induction s as [|a s IH]; simpl; [reflexivity|].
  destruct (Ascii.eqb a ","); [discriminate|]. simpl.
  intros H. now rewrite (IH H).
Qed.

Lemma fields_comma (s : string) :
  Str.contains "," s = true ->
  Spec.fields s = fst (Str.cut "," s) :: Spec.fields (snd (Str.cut "," s)).
Proof.
  induction s as [|a s IH]; simpl; [discriminate|].
  destruct (Ascii.eqb a ","); [reflexivity|]. simpl.
  intros H. rewrite (IH H). destruct (Str.cut "," s). reflexivity.
Qed.

(** The first cut of a string, read off its fields. *)
Lemma fields_one (s y : string) :
  Spec.fields s = [y] -> Str.contains "," s = false /\ s = y.
Proof.
  intros H. destruct (Str.contains "," s) eqn:C.
  - rewrite (fields_comma s C) in H.
    destruct (fields_cons (snd (Str.cut "," s))) as [f [fs E]].
    rewrite E in H. discriminate.
  - rewrite (fields_no_comma s C) in H. now injection H.
Qed.

Lemma fields_more (s y p : string) (rest : list string) :
  Spec.fields s = y :: p :: rest ->
  Str.contains "," s = true
  /\ exists r, Str.cut "," s = (y, r) /\ Spec.fields r = p :: rest.
Proof.
  intros H. destruct (Str.contains "," s) eqn:C.
  - split; [reflexivity|]. rewrite (fields_comma s C) in H.
    destruct (Str.cut "," s) as [y' r]. simpl in H.
    injection H as -> H. eauto.
  - rewrite (fields_no_comma s C) in H. discriminate.
Qed.

Lemma float_of_str_raise (s : string) (e : exn) :
  Py.float_of_str s = Raise e -> e = ValueError.
Proof.
  unfold Py.float_of_str.
  destruct (Py.sign _) as [neg l].
  destruct (_ || _); [discriminate|].
  destruct (String.eqb _ "nan"); [discriminate|].
  destruct (Py.digitpart l) as [ip l1].
  destruct (match l1 with [] => _ | _ => _ end) as [fp l2].
  destruct (ip ++ fp)%list; [now intros [= <-]|].
  destruct (Py.exponent l2) as [x [|c r]]; [discriminate | now intros [= <-]].
Qed.

Lemma of_two (s y p : string) :
  Spec.fields s = [y; p] -> Str.splitn "," 2 s = [y; p].
Proof.
  intros H. destruct (fields_more s y p [] H) as [C [r [E F]]].
  destruct (fields_one r p F) as [Cr ->].
  cbn [Str.splitn]. now rewrite C, E, Cr.
Qed.

Lemma of_three (s y p f : string) (rest : list string) :
  Spec.fields s = y :: p :: f :: rest ->
  exists f', Str.splitn "," 2 s = [y; p; f'] /\ Spec.fields f' = f :: rest.
Proof.
  intros H. destruct (fields_more s y p (f :: rest) H) as [C [r [E F]]].
  destruct (fields_more r p f rest F) as [Cr [f' [Er Ff]]].
  exists f'. cbn [Str.splitn]. now rewrite C, E, Cr, Er.
Qed.

(** C5. [Target.of] read on the comma-separated fields of its argument.
    Two fields: the target with scale 1.0 when the symbol is one
    character, an error otherwise. Three fields: success iff the symbol is
    one character and [float] accepts the third field, whose value is the
    scale. One field, or more than three: an error. A first field whose
    length is not 1: an error, however many fields follow. *)
Theorem target_of_fields (s : string) :
  (forall y p, Spec.fields s = [y; p] ->
     Target.of_ s
     = if (String.length y =? 1)%nat
       then Ok (Target.mk y (mkPath p) Float.one) else Raise ValueError)
  /\ (forall y p f, Spec.fields s = [y; p; f] ->
       ((exists t, Target.of_ s = Ok t) <->
          String.length y = 1%nat /\ exists x, Py.float_of_str f = Ok x)
       /\ (forall x, String.length y = 1%nat -> Py.float_of_str f = Ok x ->
            Target.of_ s = Ok (Target.mk y (mkPath p) x))
       /\ ((~ exists t, Target.of_ s = Ok t) -> Target.of_ s = Raise ValueError))
  /\ (forall y, Spec.fields s = [y] -> Target.of_ s = Raise ValueError)
  /\ (forall y p f g rest, Spec.fields s = y :: p :: f :: g :: rest ->
       Target.of_ s = Raise ValueError)
  /\ (forall y rest, Spec.fields s = y :: rest ->
       String.length y <> 1%nat -> Target.of_ s = Raise ValueError).
Proof.
  assert (Len : forall y, negb (Str.len y =? 1) = negb (String.length y =? 1)%nat).
  { intros y. unfold Str.len. f_equal.
    destruct (Nat.eqb_spec (String.length y) 1) as [->|N]; [reflexivity|].
    apply Z.eqb_neq. lia. }
  assert (Two : forall y p, Spec.fields s = [y; p] ->
     Target.of_ s
     = if (String.length y =? 1)%nat
       then Ok (Target.mk y (mkPath p) Float.one) else Raise ValueError).
  { intros y p H. unfold Target.of_. rewrite (of_two s y p H), Len.
    now destruct (String.length y =? 1)%nat. }
  assert (Three : forall y p f rest, Spec.fields s = y :: p :: f :: rest ->
     exists f', Spec.fields f' = f :: rest /\
     Target.of_ s
     = if (String.length y =? 1)%nat
       then match Py.float_of_str f' with
            | Ok x => Ok (Target.mk y (mkPath p) x)
            | Raise _ => Raise ValueError
            end
       else Raise ValueError).
  { intros y p f rest H. destruct (of_three s y p f rest H) as [f' [E F]].
    exists f'. split; [exact F|]. unfold Target.of_. rewrite E, Len.
    destruct (String.length y =? 1)%nat; [|reflexivity]. simpl.
    destruct (Py.float_of_str f') as [x|e] eqn:P; [reflexivity|].
    now rewrite (float_of_str_raise f' e P). }
  split; [exact Two|]. split; [|split; [|split]].
  - intros y p f H. destruct (Three y p f [] H) as [f' [F E]].
    destruct (fields_one f' f F) as [_ ->]. rewrite E.
    destruct (Nat.eqb_spec (String.length y) 1) as [L|L].
    + destruct (Py.float_of_str f) as [x|e]; (split; [|split]).
      * split; eauto.
      * intros x' _ [= ->]. reflexivity.
      * intros N. destruct N. eauto.
      * split; [intros [t Ht]; discriminate | intros [_ [x Hx]]; discriminate].
      * intros x' _ [=].
      * reflexivity.
    + split; [|split].
      * split; [intros [t Ht]; discriminate | intros [L' _]; contradiction].
      * intros x L'. contradiction.
      * reflexivity.
  - intros y H. unfold Target.of_. destruct (fields_one s y H) as [C _].
    destruct s as [|a s']; [reflexivity|].
    cbn [Str.splitn]. now rewrite C.
  - intros y p f g rest H. destruct (Three y p f (g :: rest) H) as [f' [F E]].
    rewrite E. destruct (String.length y =? 1)%nat; [|reflexivity].
    destruct (Py.float_of_str f') as [x|e] eqn:P; [|reflexivity].
    apply float_of_str_no_comma in P.
    rewrite (fields_no_comma f' P) in F. discriminate.
  - intros y rest H L.
    assert (Hn : (String.length y =? 1)%nat = false) by now apply Nat.eqb_neq.
    destruct rest as [|p [|f rest]].
    + destruct (fields_one s y H) as [C _]. unfold Target.of_.
      destruct s as [|a s']; [reflexivity|]. cbn [Str.splitn]. now rewrite C.
    + now rewrite (Two y p H), Hn.
    + destruct (Three y p f rest H) as [f' [_ E]]. now rewrite E, Hn.
Qed.

Lemma target_of_fields_witness :
  Target.of_ "t,out.rrd,2.5"
  = Ok (Target.mk "t" (mkPath "out.rrd") (Float.of_ratio false 5 2))
  /\ Target.of_ "t,out.rrd" = Ok (Target.mk "t" (mkPath "out.rrd") Float.one).
Proof.
  split.
  - apply (proj1 (proj2 (proj1 (proj2 (target_of_fields "t,out.rrd,2.5"))
                           "t" "out.rrd" "2.5" eq_refl))).
    + reflexivity.
    + vm_compute. reflexivity.
  - apply (proj1 (target_of_fields "t,out.rrd") "t" "out.rrd" eq_refl).
Defined.

(** ** What the fetcher returns *)

Lemma cut_append (c : ascii) (a b : string) :
  Str.contains c a = false ->
  Str.contains c (a ++ String c b) = true
  /\ Str.cut c (a ++ String c b) = (a, b).
Proof.
  induction a as [|x a IH]; simpl.
  - intros _. now rewrite Ascii.eqb_refl.
  - destruct (Ascii.eqb x c); [discriminate|]. simpl. intros H.
    destruct (IH H) as [-> ->]. auto.
Qed.

Lemma local_ok (off : Z -> Z) (n l : Z) :
  Datetime.local off n = Ok l ->
  l = n + off n /\ Datetime.min_seconds <= l <= Datetime.max_seconds.
Proof.
  unfold Datetime.local. cbv zeta.
  destruct (_ || _); [discriminate|].
  destruct (_ || _) eqn:E; [discriminate|].
  intros [= <-]. apply orb_false_iff in E as [E1 E2].
  apply Z.ltb_ge in E1, E2. auto.
Qed.

(** A timestamp [datetime.fromtimestamp] accepts becomes its local
    wall-clock time, a time within the years 1 to 9999. *)
Lemma fromtimestamp_local (off : Z -> Z) (n : Z) (d : datetime) :
  Datetime.fromtimestamp off n = Ok d ->
  Datetime.micros d = (n + off n) * 1000000.
Proof.
  unfold Datetime.fromtimestamp.
  destruct (_ || _); [discriminate|].
  destruct (Datetime.local off n) as [l|e] eqn:L; [|discriminate].
  cbn [mbind result_bind].
  destruct (Datetime.local off (n - Datetime.max_fold_seconds)); [|discriminate].
  cbn [mbind result_bind]. intros [= <-].
  destruct (local_ok _ _ _ L) as [-> _]. reflexivity.
Qed.

(** [get_value] on the reply [r] of the collaborator, as a function of
    the reply alone. *)
Lemma get_value_reply (t : Target.t) (rc : option Path) (w : World) :
  fst (get_value t rc w)
  = let r := rrdtool w (runs w) (cmdline t rc) in
    if negb (returncode r =? 0) then Ok None
    else
      a ← last_item (splitlines (stdout r));
      if Str.contains ":" a then
        if String.eqb (snd (Str.cut ":" a)) "U" then Ok None
        else
          n ← Py.int_of_str (fst (Str.cut ":" a));
          d ← Datetime.fromtimestamp (utcoffset w) n;
          x ← Py.float_of_str (snd (Str.cut ":" a));
          Ok (Some (mkState d x))
      else Ok None.
Proof.
  cbv zeta. unfold get_value. rewrite bind_M. cbn [subprocess_run].
  destruct (negb (returncode _ =? 0)); [reflexivity|].
  rewrite bind_M. unfold lift at 1.
  destruct (last_item _) as [a|e]; [|reflexivity]. cbn [mbind result_bind].
  destruct (Str.contains ":" a); [|reflexivity].
  rewrite bind_M. cbn [log].
  destruct (Str.cut ":" a) as [ts v]. cbn [fst snd].
  destruct (String.eqb v "U"); [reflexivity|].
  rewrite bind_M. unfold lift at 1.
  destruct (Py.int_of_str ts) as [n|e]; [|reflexivity]. cbn [mbind result_bind].
  rewrite bind_M. unfold datetime_fromtimestamp at 1. cbn [utcoffset emit].
  destruct (Datetime.fromtimestamp (utcoffset w) n) as [d|e]; [|reflexivity].
  cbn [mbind result_bind].
  rewrite bind_M. unfold lift at 1.
  destruct (Py.float_of_str v) as [x|e]; reflexivity.
Qed.

(** C1, as the code has it. Of the parse failures only the line without
    a separator yields [None]; an empty output raises [IndexError], a
    timestamp that is no integer and a value that is no number raise
    [ValueError], and so does the sentinel when a blank precedes it, for
    every target. *)
Theorem get_value_raises (t : Target.t) (rc : option Path) (now : Z) :
  let fetch out := fst (get_value t rc (Sample.world now (mkReply 0 out))) in
  fetch "" = Raise IndexError
  /\ fetch "1700000000" = Ok None
  /\ fetch "soon:21.5" = Raise ValueError
  /\ fetch "1700000000:warm" = Raise ValueError
  /\ fetch "1700000000: U" = Raise ValueError.
Proof.
  cbv beta zeta. rewrite !get_value_reply. cbv zeta.
  cbn [Sample.world rrdtool runs utcoffset returncode stdout].
  repeat split; vm_compute; reflexivity.
Qed.

(** C8 as stated fails. The line [300000000000:21.5] has an integer
    timestamp and a numeric value, yet [get_value] returns no reading: the
    timestamp lies in the year 11476, which [datetime.fromtimestamp]
    refuses with [ValueError]. *)
Lemma get_value_year_out_of_range :
  let w := Sample.world Sample.instant (mkReply 0 "300000000000:21.5") in
  returncode (rrdtool w (runs w) (cmdline Sample.target None)) = 0
  /\ last_item (splitlines (stdout (rrdtool w (runs w) (cmdline Sample.target None))))
     = Ok "300000000000:21.5"
  /\ Py.int_of_str "300000000000" = Ok 300000000000
  /\ Py.float_of_str "21.5" = Ok (Float.of_ratio false 215 10)
  /\ fst (get_value Sample.target None w) = Raise ValueError
  /\ ~ (exists st, fst (get_value Sample.target None w) = Ok (Some st)).
Proof.
  cbv zeta.
  assert (E : fst (get_value Sample.target None
                     (Sample.world Sample.instant (mkReply 0 "300000000000:21.5")))
              = Raise ValueError) by (vm_compute; reflexivity).
  repeat split; try (vm_compute; reflexivity); try exact E.
  intros [st H]. rewrite E in H. discriminate H.
Qed.

(** C8, amended. [get_value] returns [None] when the collaborator exits
    with a non-zero status and when the text after the first colon of the
    last line is ["U"]; for a last line [timestamp:value] whose timestamp
    [int] accepts, whose value [float] accepts and whose timestamp
    [datetime.fromtimestamp] can represent, it returns the reading made of
    that local time and that number. *)
Theorem get_value_results (t : Target.t) (rc : option Path) (w : World) :
  let r := rrdtool w (runs w) (cmdline t rc) in
  (returncode r <> 0 -> fst (get_value t rc w) = Ok None)
  /\ (forall ts,
       last_item (splitlines (stdout r)) = Ok (ts ++ ":U") ->
       Str.contains ":" ts = false ->
       fst (get_value t rc w) = Ok None)
  /\ (forall ts v n x d,
       returncode r = 0 ->
       last_item (splitlines (stdout r)) = Ok (ts ++ String ":" v) ->
       Py.int_of_str ts = Ok n ->
       Py.float_of_str v = Ok x ->
       Datetime.fromtimestamp (utcoffset w) n = Ok d ->
       fst (get_value t rc w) = Ok (Some (mkState d x))
       /\ Datetime.micros d = (n + utcoffset w n) * 1000000).
Proof.
  intros r. pose proof (get_value_reply t rc w) as G. cbv zeta in G. fold r in G.
  split; [|split].
  - intros H. rewrite G. apply Z.eqb_neq in H. now rewrite H.
  - intros ts L C. rewrite G, L. destruct (negb _); [reflexivity|].
    cbn [mbind result_bind].
    destruct (cut_append ":" ts "U" C) as [-> ->]. reflexivity.
  - intros ts v n x d H L I F D. rewrite G, H, L. cbn [negb Z.eqb mbind result_bind].
    destruct (cut_append ":" ts v (int_of_str_no_colon ts n I)) as [-> ->].
    cbn [fst snd]. rewrite I, F. cbn [mbind result_bind]. rewrite D.
    destruct (String.eqb_spec v "U") as [->|_]; [discriminate F|].
    split; [reflexivity|].
    apply (fromtimestamp_local _ _ _ D).
Qed.

Lemma get_value_results_witness :
  fst (get_value Sample.target None
         (Sample.world Sample.instant (mkReply 0 "1700000000:21.5")))
  = Ok (Some (mkState (Datetime.mk 1700000000000000) (Float.of_ratio false 215 10))).
Proof.
  apply (proj2 (proj2 (get_value_results Sample.target None
                         (Sample.world Sample.instant (mkReply 0 "1700000000:21.5"))))
           "1700000000" "21.5" 1700000000 (Float.of_ratio false 215 10)
           (Datetime.mk 1700000000000000));
    vm_compute; reflexivity.
Defined.

(** * Further properties of the code *)

(** ** The fetcher and the environment *)

Lemma get_value_effect (t : Target.t) (rc : option Path) (w : World) :
  snd (get_value t rc w)
  = mkWorld (utcoffset w) (clock w) (rrdtool w) (ticks w) (S (runs w))
            (trace w ++ EvRun (cmdline t rc) (rrdtool w (runs w) (cmdline t rc))
                     :: debug_line (rrdtool w (runs w) (cmdline t rc))).
Proof.
  unfold get_value, debug_line. rewrite bind_M. cbn [subprocess_run].
  set (cmd := cmdline t rc).
  set (r := rrdtool w (runs w) cmd).
  destruct (negb (returncode r =? 0)); [world_eq|].
  rewrite bind_M. unfold lift at 1.
  destruct (last_item (splitlines (stdout r))) as [a|e]; [|world_eq].
  destruct (Str.contains ":" a); [|world_eq].
  rewrite bind_M. cbn [log].
  destruct (Str.cut ":" a) as [ts v].
  destruct (String.eqb v "U"); [world_eq|].
  rewrite bind_M. unfold lift at 1.
  destruct (Py.int_of_str ts) as [n|e]; [|world_eq].
  rewrite bind_M. unfold datetime_fromtimestamp at 1. cbn [utcoffset emit].
  destruct (Datetime.fromtimestamp (utcoffset w) n) as [d|e]; [|world_eq].
  rewrite bind_M. unfold lift at 1.
  destruct (Py.float_of_str v) as [x|e]; world_eq.
Qed.

Lemma shown_app (a b : list Event) : shown (a ++ b) = (shown a ++ shown b)%list.
Proof.
  induction a as [|e a IH]; simpl; [reflexivity|].
  destruct e; simpl; now rewrite ?IH.
Qed.

Lemma debug_line_cases (r : Reply) :
  debug_line r = [] \/ exists a, debug_line r = [EvDebugLine a].
Proof.
  unfold debug_line. destruct (negb _); [now left|].
  destruct (last_item _) as [a|e]; [|now left].
  destruct (Str.contains ":" a); [right; eauto | now left].
Qed.

Lemma get_value_runs_once_shown (t : Target.t) (rc : option Path) (w : World) :
  shown (trace (snd (get_value t rc w))) = shown (trace w).
Proof.
  rewrite get_value_effect. cbn [trace]. rewrite shown_app. cbn [shown].
  destruct (debug_line_cases (rrdtool w (runs w) (cmdline t rc))) as [-> | [a ->]];
    cbn [shown]; apply app_nil_r.
Qed.

(** X1. Whatever the reply, and whether it returns or raises, [get_value]
    runs the collaborator exactly once, with the command line
    [rrdtool lastupdate <file>] followed by [--daemon unix:<socket>] when
    a cache daemon is configured, never reads the clock and never touches
    the display. *)
Theorem get_value_runs_once (t : Target.t) (rc : option Path) (w : World) :
  let w' := snd (get_value t rc w) in
  runs w' = S (runs w)
  /\ ticks w' = ticks w
  /\ shown (trace w') = shown (trace w)
  /\ (exists tr,
        trace w' = (trace w ++ EvRun (cmdline t rc)
                                 (rrdtool w (runs w) (cmdline t rc)) :: tr)%list
        /\ (tr = [] \/ exists a, tr = [EvDebugLine a]))
  /\ (exists daemon,
        cmdline t rc
        = ("rrdtool" :: "lastupdate" :: path_str (Target.file t) :: daemon)%list
        /\ (rc = None -> daemon = [])
        /\ (forall p, rc = Some p ->
             daemon = ["--daemon"; String.append "unix:" (path_str p)])).
Proof.
  cbv zeta. repeat split.
  - now rewrite get_value_effect.
  - now rewrite get_value_effect.
  - apply get_value_runs_once_shown.
  - rewrite get_value_effect. cbn [trace].
    eexists. split; [reflexivity | apply debug_line_cases].
  - unfold cmdline. eexists. split; [reflexivity|]. split.
    + now intros ->.
    + now intros p ->.
Qed.

(** ** One iteration, further *)

Lemma body_index_error (cfg : Config) (i : nat) (t : Target.t)
    (states : States) (w : World) :
  states !! i = None -> fst (body cfg i t states w) = Raise IndexError.
Proof.
  intros H. unfold body. rewrite bind_M.
  pose proof (select_raise states i w H) as R.
  destruct (select states i w) as [[x|e] w1]; simpl in R; [discriminate|].
  now injection R as ->.
Qed.

(** X2. An iteration that ends normally leaves the number of slots and
    every slot but the one of its target as they were. *)
Theorem iteration_frame (cfg : Config) (i : nat) (t : Target.t)
    (states states' : States) (w : World) :
  fst (body cfg i t states w) = Ok states' ->
  length states' = length states
  /\ forall j, j <> i -> states' !! j = states !! j.
Proof.
  destruct (states !! i) as [s|] eqn:H.
  2:{ rewrite (body_index_error _ _ _ _ _ H). discriminate. }
  rewrite (body_steps _ _ _ _ _ _ H). cbv zeta.
  destruct (older_than _ _ _).
  - destruct (get_value _ _ _) as [[[ns|]|e] w2]; simpl; intros E;
      try discriminate; injection E as <-.
    + split; [apply length_insert|]. intros j Hj.
      apply list_lookup_insert_ne. congruence.
    + auto.
  - simpl. intros E. injection E as <-. auto.
Qed.

Lemma iteration_frame_witness :
  let states := [None; Some (Sample.reading 10)] in
  let w := Sample.world Sample.instant (mkReply 0 "1699999999:21.5") in
  exists states',
    fst (body Sample.config 0 Sample.target states w) = Ok states'
    /\ length states' = 2%nat
    /\ states' !! 1%nat = Some (Some (Sample.reading 10)).
Proof.
  intros states w.
  assert (E : fst (body Sample.config 0 Sample.target states w)
              = Ok [Some (mkState (Datetime.mk 1699999999000000)
                                  (Float.of_ratio false 215 10));
                    Some (Sample.reading 10)]) by (vm_compute; reflexivity).
  eexists. split; [exact E|].
  destruct (iteration_frame _ _ _ _ _ _ E) as [L F].
  split; [exact L|]. apply (F 1%nat). discriminate.
Defined.



(** X4. A reading no older than the update interval is served from the
    slot: the iteration does not run the collaborator and keeps the
    states; when the error threshold is at least the update interval the
    label is the formatted value, never the error text. *)
Theorem fresh_reading_is_cached (cfg : Config) (i : nat) (t : Target.t)
    (states : States) (st : State) (w : World) :
  states !! i = Some (Some st) ->
  Datetime.sub (clock w (ticks w)) (at_ st) <= update_interval cfg ->
  let now := clock w (ticks w) in
  body cfg i t states w
  = (Ok states, paced cfg t now (Some st) (selected i (Some st) w))
  /\ runs (snd (body cfg i t states w)) = runs w
  /\ (update_interval cfg <= error_threashold cfg ->
      label cfg t now (Some st)
      = Target.symbol t ++ formatted (Float.mul (value st) (Target.scale t))
      /\ label cfg t now (Some st) <> Target.symbol t ++ " ERR ").
Proof.
  intros H Hage now.
  assert (B : body cfg i t states w
              = (Ok states, paced cfg t now (Some st) (selected i (Some st) w))).
  { rewrite (body_steps _ _ _ _ _ _ H). cbv zeta. fold now. cbn [older_than].
    destruct (Z.ltb_spec (update_interval cfg) (Datetime.sub now (at_ st)));
      [unfold now in *; lia | reflexivity]. }
  split; [exact B|]. split; [now rewrite B|].
  intros Hcfg.
  assert (L : label cfg t now (Some st)
              = Target.symbol t ++ formatted (Float.mul (value st) (Target.scale t))).
  { unfold label.
    destruct (Z.ltb_spec (error_threashold cfg) (Datetime.sub now (at_ st)));
      [unfold now in *; lia | reflexivity]. }
  split; [exact L|]. rewrite L. intros E. apply append_inj in E.
  pose proof (contains_E_formatted (Float.mul (value st) (Target.scale t))) as C.
  rewrite E in C. discriminate C.
Qed.

Lemma fresh_reading_is_cached_witness :
  let w := Sample.world Sample.instant (mkReply 0 "") in
  fst (body Sample.config 0 Sample.target [Some (Sample.reading 300)] w)
  = Ok [Some (Sample.reading 300)]
  /\ runs (snd (body Sample.config 0 Sample.target [Some (Sample.reading 300)] w))
     = 0%nat.
Proof.
  intros w.
  destruct (fresh_reading_is_cached Sample.config 0 Sample.target
              [Some (Sample.reading 300)] (Sample.reading 300) w eq_refl)
    as [B [R _]].
  - vm_compute. discriminate.
  - split; [now rewrite B | exact R].
Defined.

(** ** The loop, further *)

(** A rule for the loop: what holds before iteration [k] and is carried
    over by every iteration that ends normally holds after the last one;
    an iteration that raises ends the loop at once. *)
Section LoopRule.

Variable cfg : Config.
Variable targets : list Target.t.
Variable P : nat -> States -> World -> Prop.
Variable Q : nat -> exn -> World -> Prop.

Hypothesis P_step :
  forall k t states w,
    P k states w ->
    targets !! (k mod length targets)%nat = Some t ->
    match body cfg (k mod length targets) t states w with
    | (Ok states', w') => P (S k) states' w'
    | (Raise e, w') => Q k e w'
    end.

Lemma loop_rule (n : nat) :
  targets <> [] ->
  forall k states w,
    P k states w ->
    match loop n cfg (cycle_state targets k) states w with
    | (Ok states', w') => P (k + n) states' w'
    | (Raise e, w') => exists j, (k <= j < k + n)%nat /\ Q j e w'
    end.
Proof.
  intros Ht. induction n as [|n IH]; intros k states w HP.
  { cbn. now rewrite Nat.add_0_r. }
  destruct (lookup_mod targets k Ht) as [t Hk].
  cbn [loop]. rewrite (cycle_next_state targets k t Hk), bind_M.
  pose proof (P_step k t states w HP Hk) as Hs.
  destruct (body cfg (k mod length targets) t states w) as [[states'|e] w'].
  - specialize (IH (S k) states' w' Hs).
    destruct (loop n cfg (cycle_state targets (S k)) states' w') as [[st|e] w''].
    + now rewrite Nat.add_succ_r.
    + destruct IH as [j [Hj HQ]]. exists j. split; [lia | exact HQ].
  - exists k. split; [lia | exact Hs].
Qed.

End LoopRule.

Lemma main_loop (n : nat) (cfg : Config) (targets : list Target.t) (w : World) :
  main n cfg targets w
  = loop n cfg (cycle_state targets 0) (replicate (length targets) None)
         (emit (EvBrightness (brightness cfg)) w).
Proof. reflexivity. Qed.

Lemma main_no_targets (n : nat) (cfg : Config) (w : World) :
  main n cfg [] w = (Ok [], emit (EvBrightness (brightness cfg)) w).
Proof. destruct n; reflexivity. Qed.

Lemma body_ok_length (cfg : Config) (k : nat) (t : Target.t) (states : States)
    (targets : list Target.t) :
  length states = length targets ->
  targets !! (k mod length targets)%nat = Some t ->
  exists s, states !! (k mod length targets)%nat = Some s.
Proof.
  intros L H. apply lookup_lt_Some in H.
  assert (H' : (k mod length targets < length states)%nat) by lia.
  destruct (lookup_lt_is_Some_2 states _ H') as [s Hs]. eauto.
Qed.

(** X5. Each iteration of [main] samples the clock exactly once and runs
    the collaborator at most once: after the loop has begun [m] of its
    first [n] iterations, the clock was read [m] times and the
    collaborator run at most [m] times; all [n] iterations are begun
    unless one raises. *)
Theorem main_counts (n : nat) (cfg : Config) (targets : list Target.t)
    (w : World) :
  let w' := snd (main n cfg targets w) in
  exists m, (m <= n)%nat
    /\ length (visits (trace w')) = (length (visits (trace w)) + m)%nat
    /\ ticks w' = (ticks w + m)%nat
    /\ (runs w <= runs w' <= runs w + m)%nat
    /\ (targets = [] \/ (exists e, fst (main n cfg targets w) = Raise e) \/ m = n).
Proof.
  cbv zeta. destruct (decide (targets = [])) as [->|Ht].
  { rewrite main_no_targets. exists 0%nat. cbn. rewrite visits_app. cbn.
    rewrite app_nil_r. repeat split; auto; lia. }
  rewrite main_loop.
  set (w0 := emit (EvBrightness (brightness cfg)) w).
  set (I := fun k (w1 : World) =>
              length (visits (trace w1)) = (length (visits (trace w)) + k)%nat
              /\ ticks w1 = (ticks w + k)%nat
              /\ (runs w <= runs w1 <= runs w + k)%nat).
  pose proof (loop_rule cfg targets
                (fun k states w1 => length states = length targets /\ I k w1)
                (fun j _ w1 => I (S j) w1)) as R.
  assert (Step : forall k t states w1,
            length states = length targets /\ I k w1 ->
            targets !! (k mod length targets)%nat = Some t ->
            match body cfg (k mod length targets) t states w1 with
            | (Ok states', w') => length states' = length targets /\ I (S k) w'
            | (Raise e, w') => I (S k) w'
            end).
  { intros k t states w1 [L [Hv [Ht1 Hr]]] Hk.
    destruct (body_ok_length cfg k t states targets L Hk) as [s Hs].
    pose proof (body_visits cfg _ t states s w1 Hs) as V.
    pose proof (body_length cfg (k mod length targets)%nat t states) as BL.
    destruct (body_world cfg _ t states s w1 Hs) as [tr [W _]].
    assert (J : I (S k) (snd (body cfg (k mod length targets) t states w1))).
    { unfold I. rewrite V, W, length_app. cbn [ticks runs length].
      destruct (older_than _ _ _); lia. }
    destruct (body cfg (k mod length targets) t states w1) as [[states'|e] w']
      eqn:E; cbn [fst snd] in *; [|exact J].
    split; [|exact J]. rewrite (BL states' s w1 Hs); [exact L | now rewrite E]. }
  specialize (R Step n Ht 0%nat
                (replicate (length targets) None) w0).
  assert (I0 : length (replicate (length targets) (@None State)) = length targets
               /\ I 0%nat w0).
  { split; [apply length_replicate|]. unfold I, w0, emit. cbn [trace ticks runs].
    rewrite visits_app. cbn. rewrite app_nil_r. lia. }
  specialize (R I0).
  destruct (loop n cfg (cycle_state targets 0) (replicate (length targets) None) w0)
    as [[st|e] w'] eqn:E; cbn [fst snd].
  - destruct R as [_ [Hv [Ht1 Hr]]]. exists n. cbn in *. repeat split; auto; lia.
  - destruct R as [j [Hj [Hv [Ht1 Hr]]]]. exists (S j).
    repeat split; try lia; eauto.
Qed.

Lemma label_shape (cfg : Config) (t : Target.t) (now : datetime)
    (s : option State) :
  exists r, label cfg t now s = Target.symbol t ++ r /\ String.length r = 5%nat.
Proof.
  unfold label. destruct s as [st|]; [|eexists; split; reflexivity].
  destruct (error_threashold cfg <? Datetime.sub now (at_ st)).
  - eexists; split; reflexivity.
  - eexists; split; [reflexivity | apply formatted_length].
Qed.

(** What the display received in one iteration: nothing when it raised,
    the label of its target otherwise. *)
Lemma body_shown (cfg : Config) (i : nat) (t : Target.t) (states : States)
    (s : option State) (w : World) :
  states !! i = Some s ->
  match body cfg i t states w with
  | (Ok _, w') =>
      exists r, shown (trace w') = (shown (trace w) ++ [(Target.symbol t ++ r)%string])%list
                /\ String.length r = 5%nat
  | (Raise _, w') => shown (trace w') = shown (trace w)
  end.
Proof.
  intros H. rewrite (body_steps _ _ _ _ _ _ H). cbv zeta.
  assert (Sel : shown (trace (selected i s w)) = shown (trace w)).
  { unfold selected. cbn [trace]. rewrite shown_app. cbn. apply app_nil_r. }
  assert (Pace : forall s' w2, shown (trace w2) = shown (trace w) ->
            exists r, shown (trace (paced cfg t (clock w (ticks w)) s' w2))
                      = (shown (trace w) ++ [(Target.symbol t ++ r)%string])%list
                      /\ String.length r = 5%nat).
  { intros s' w2 E. destruct (label_shape cfg t (clock w (ticks w)) s') as [r [L Hr]].
    exists r. split; [|exact Hr]. unfold paced. cbn [trace].
    rewrite shown_app, E. cbn [shown]. now rewrite L. }
  destruct (older_than _ _ _).
  - pose proof (get_value_runs_once_shown t (rrdcache cfg) (selected i s w)) as G.
    rewrite Sel in G.
    destruct (get_value t (rrdcache cfg) (selected i s w)) as [[[ns|]|e] w2];
      cbn [snd] in G; auto.
  - auto.
Qed.





(** X8. The loop never empties a slot: when it ends normally, the number
    of slots is unchanged and every slot that held a reading before still
    holds one, from whatever states and iterator position it started. *)
Theorem loop_keeps_readings (n : nat) (cfg : Config) (it : Cycle Target.t)
    (states states' : States) (w : World) :
  fst (loop n cfg it states w) = Ok states' ->
  length states' = length states
  /\ forall j st, states !! j = Some (Some st) ->
                  exists st', states' !! j = Some (Some st').
Proof.
  revert it states w. induction n as [|n IH]; intros it states w.
  { cbn. intros [= <-]. eauto. }
  cbn [loop]. destruct (cycle_next it) as [[[i t] it']|].
  2:{ cbn. intros [= <-]. eauto. }
  rewrite bind_M.
  destruct (body cfg i t states w) as [[st1|e] w1] eqn:B; [|discriminate].
  intros L. destruct (IH it' st1 w1 L) as [Len Keep].
  assert (B' : fst (body cfg i t states w) = Ok st1) by now rewrite B.
  assert (Step : length st1 = length states
                 /\ forall j st, states !! j = Some (Some st) ->
                                 exists st', st1 !! j = Some (Some st')).
  { destruct (states !! i) as [s|] eqn:H.
    2:{ rewrite (body_index_error _ _ _ _ _ H) in B'. discriminate. }
    rewrite (body_steps _ _ _ _ _ _ H) in B'. cbv zeta in B'.
    destruct (older_than _ _ _).
    - destruct (get_value _ _ _) as [[[ns|]|e] w2]; simpl in B';
        try discriminate; injection B' as <-.
      + split; [apply length_insert|]. intros j st Hj.
        destruct (decide (i = j)) as [->|Hij].
        * exists ns. apply list_lookup_insert_eq. now apply lookup_lt_Some in H.
        * exists st. now rewrite list_lookup_insert_ne.
      + eauto.
    - simpl in B'. injection B' as <-. eauto. }
  destruct Step as [Len1 Keep1]. split; [lia|].
  intros j st Hj. destruct (Keep1 j st Hj) as [st1' H1]. eauto.
Qed.

Lemma loop_keeps_readings_witness :
  let states := [Some (Sample.reading 10); None] in
  let w := Sample.world Sample.instant (mkReply 1 "") in
  exists states',
    fst (loop 4 Sample.config
              (cycle (enumerate [Sample.target; Sample.target])) states w)
    = Ok states'
    /\ length states' = 2%nat
    /\ exists st', states' !! 0%nat = Some (Some st').
Proof.
  intros states w.
  assert (E : fst (loop 4 Sample.config
                        (cycle (enumerate [Sample.target; Sample.target])) states w)
              = Ok states) by (vm_compute; reflexivity).
  exists states. split; [exact E|].
  destruct (loop_keeps_readings _ _ _ _ _ _ E) as [L K].
  split; [exact L|]. apply (K 0%nat (Sample.reading 10)). reflexivity.
Defined.

(** ** The target descriptor, further *)

Lemma cut_spec (c : ascii) (s a b : string) :
  Str.contains c s = true -> Str.cut c s = (a, b) ->
  s = a ++ String c b /\ Str.contains c a = false.
Proof.
  revert a b. induction s as [|x s IH]; simpl; intros a b; [discriminate|].
  destruct (Ascii.eqb x c) eqn:E.
  - intros _ [= <- <-]. apply Ascii.eqb_eq in E. subst. auto.
  - simpl. intros C. destruct (Str.cut c s) as [l r]. intros [= <- <-].
    destruct (IH l r C eq_refl) as [-> N]. simpl. now rewrite E.
Qed.

(** What [Target.of] accepts, read off the pieces of [split(",", 2)]. *)
Lemma of_cases (s : string) (t : Target.t) :
  Target.of_ s = Ok t ->
  exists y p, String.length y = 1%nat
    /\ Str.contains "," y = false /\ Str.contains "," p = false
    /\ ((s = y ++ "," ++ p /\ t = Target.mk y (mkPath p) Float.one)
        \/ exists f, s = y ++ "," ++ p ++ "," ++ f
                     /\ Py.float_of_str f = Ok (Target.scale t)
                     /\ t = Target.mk y (mkPath p) (Target.scale t)).
Proof.
  unfold Target.of_. cbn [Str.splitn].
  destruct (Str.contains "," s) eqn:C1; [|discriminate].
  destruct (Str.cut "," s) as [y r] eqn:X1.
  destruct (cut_spec _ _ _ _ C1 X1) as [-> Ny].
  destruct (Str.contains "," r) eqn:C2.
  - destruct (Str.cut "," r) as [p f] eqn:X2.
    destruct (cut_spec _ _ _ _ C2 X2) as [-> Np].
    unfold Str.len.
    destruct (Z.eqb_spec (Z.of_nat (String.length y)) 1) as [L|L]; [|discriminate].
    cbn [negb]. destruct (Py.float_of_str f) as [x|e] eqn:F; [|discriminate].
    intros [= <-]. exists y, p. repeat split; auto; [lia|].
    right. exists f. cbn. auto.
  - unfold Str.len.
    destruct (Z.eqb_spec (Z.of_nat (String.length y)) 1) as [L|L]; [|discriminate].
    intros [= <-]. exists y, r. repeat split; auto. lia.
Qed.

(** X9. Every target [Target.of] returns has a symbol of exactly one
    character, which is not a comma, and a file name without a comma. *)
Theorem of_target_invariant (s : string) (t : Target.t) :
  Target.of_ s = Ok t ->
  String.length (Target.symbol t) = 1%nat
  /\ Str.contains "," (Target.symbol t) = false
  /\ Str.contains "," (path_str (Target.file t)) = false.
Proof.
  intros H. destruct (of_cases s t H) as [y [p [L [Ny [Np [[_ ->]|[f [_ [_ ->]]]]]]]]];
    cbn; auto.
Qed.

Lemma of_target_invariant_witness :
  String.length (Target.symbol (Target.mk "t" (mkPath "x.rrd") Float.one)) = 1%nat
  /\ Str.contains "," "t" = false
  /\ Str.contains "," "x.rrd" = false.
Proof.
  apply (of_target_invariant "t,x.rrd" (Target.mk "t" (mkPath "x.rrd") Float.one)).
  reflexivity.
Defined.



(** ** The fetcher, further *)

Lemma splitlines_from_cons (f : bool) (c : ascii) (s : string) :
  splitlines_from f (String c s)
  = if f && Ascii.eqb c "010" then splitlines_from false s
    else if is_linebreak c then
      EmptyString :: splitlines_from (Ascii.eqb c "013") s
    else match splitlines_from false s with
         | [] => [String c EmptyString]
         | h :: t => String c h :: t
         end.
Proof. reflexivity. Qed.

(** The lines of a text that ends in a line feed and a further text are
    lines of the first part followed by the lines of the second. *)
Lemma splitlines_from_append (h l : string) (f : bool) :
  exists pre,
    splitlines_from f (h ++ String "010" l) = (pre ++ splitlines_from false l)%list
    /\ (f = false -> pre <> []).
Proof.
  revert f. induction h as [|c h IH]; intros f.
  - cbn [append]. rewrite splitlines_from_cons.
    destruct f; cbn [andb Ascii.eqb Bool.eqb is_linebreak].
    + exists []. split; [reflexivity | discriminate].
    + exists [EmptyString]. split; [reflexivity | discriminate].
  - cbn [append]. rewrite splitlines_from_cons.
    destruct (f && Ascii.eqb c "010").
    { destruct (IH false) as [pre [E N]]. exists pre. split; [exact E|].
      intros _. now apply N. }
    destruct (is_linebreak c).
    { destruct (IH (Ascii.eqb c "013")) as [pre [E N]].
      exists (EmptyString :: pre). rewrite E. split; [reflexivity | discriminate]. }
    destruct (IH false) as [pre [E N]]. rewrite E.
    destruct pre as [|x pre]; [now destruct (N eq_refl)|].
    exists (String c x :: pre). split; [reflexivity | discriminate].
Qed.

Lemma splitlines_one_line (l : string) :
  one_line l -> l <> EmptyString ->
  splitlines l = [l] /\ splitlines (l ++ String "010" EmptyString) = [l].
Proof.
  unfold splitlines, one_line. induction l as [|c l IH]; [congruence|].
  intros H _. cbn [list_ascii_of_string] in H.
  inversion H as [|? ? Hc Hl]; subst.
  cbn [append].
  rewrite !splitlines_from_cons. cbn [andb]. rewrite Hc.
  destruct l as [|d l].
  - split; reflexivity.
  - destruct (IH Hl) as [-> ->]; [discriminate|]. split; reflexivity.
Qed.

Lemma last_app_cons {A : Type} (pre l : list A) (x : A) :
  last (pre ++ x :: l) = last (x :: l).
Proof.
  induction pre as [|y pre IH]; [reflexivity|].
  cbn [app]. rewrite <- IH. destruct pre; reflexivity.
Qed.

(** The last line of a text whose final line [l] follows a line feed and
    may itself be closed by one. *)
Lemma last_line_of_output (h l : string) :
  one_line l -> l <> EmptyString ->
  last_item (splitlines (h ++ String "010" (l ++ String "010" EmptyString))) = Ok l
  /\ last_item (splitlines (h ++ String "010" l)) = Ok l
  /\ last_item (splitlines (l ++ String "010" EmptyString)) = Ok l
  /\ last_item (splitlines l) = Ok l.
Proof.
  intros H N. destruct (splitlines_one_line l H N) as [E1 E2].
  unfold last_item. rewrite E1, E2. unfold splitlines in *.
  destruct (splitlines_from_append h (l ++ String "010" EmptyString) false)
    as [pre1 [-> _]].
  destruct (splitlines_from_append h l false) as [pre2 [-> _]].
  rewrite E1, E2, !last_app_cons. auto.
Qed.

(** X11. [get_value] reads the last line of the output only: whatever
    text precedes the final line, and whether or not a line feed closes
    it, the result is the one for that line alone. *)
Theorem get_value_reads_last_line (t : Target.t) (rc : option Path) (w : World)
    (code : Z) (h l : string) :
  one_line l -> l <> EmptyString ->
  let fetch out := fst (get_value t rc (answering w (mkReply code out))) in
  fetch (h ++ String "010" (l ++ String "010" EmptyString)) = fetch l
  /\ fetch (h ++ String "010" l) = fetch l
  /\ fetch (l ++ String "010" EmptyString) = fetch l.
Proof.
  intros H N. cbv beta zeta. rewrite !get_value_reply. cbv zeta.
  cbn [answering rrdtool returncode stdout utcoffset].
  destruct (last_line_of_output h l H N) as [-> [-> [-> ->]]].
  auto.
Qed.

Lemma get_value_reads_last_line_witness :
  let w := Sample.world Sample.instant (mkReply 0 "") in
  fst (get_value Sample.target None
         (answering w (mkReply 0 (" temp" ++ String "010"
                                   (String "010" ("1700000000: 21.5"
                                                  ++ String "010" EmptyString))))))
  = Ok (Some (mkState (Datetime.mk 1700000000000000) (Float.of_ratio false 215 10))).
Proof.
  intros w.
  destruct (get_value_reads_last_line Sample.target None w 0
              (" temp" ++ String "010" EmptyString) "1700000000: 21.5")
    as [E _].
  - repeat constructor.
  - discriminate.
  - cbv beta in E. etransitivity; [exact E|]. vm_compute. reflexivity.
Defined.

(** X12. The sentinel is recognised only when it follows the colon at
    once: a last line that ends in a colon, a blank and [U] is never
    taken for "no data", it makes [get_value] raise. *)
Theorem blank_before_sentinel_raises (t : Target.t) (rc : option Path)
    (w : World) (ts : string) :
  let r := rrdtool w (runs w) (cmdline t rc) in
  returncode r = 0 ->
  last_item (splitlines (stdout r)) = Ok (ts ++ ": U") ->
  Str.contains ":" ts = false ->
  exists e, fst (get_value t rc w) = Raise e.
Proof.
  intros r H L C. rewrite get_value_reply. cbv zeta. fold r.
  rewrite H, L. cbn [negb Z.eqb mbind result_bind].
  destruct (cut_append ":" ts " U" C) as [-> ->]. cbn [fst snd String.eqb].
  cbn -[Py.int_of_str Datetime.fromtimestamp mbind].
  destruct (Py.int_of_str ts) as [n|e]; [|eauto]. cbn [mbind result_bind].
  destruct (Datetime.fromtimestamp (utcoffset w) n) as [d|e]; [|eauto].
  cbn [mbind result_bind]. eauto.
Qed.

Lemma blank_before_sentinel_raises_witness :
  exists e,
    fst (get_value Sample.target None
           (Sample.world Sample.instant (mkReply 0 "1700000000: U")))
    = Raise e.
Proof.
  apply (blank_before_sentinel_raises Sample.target None
           (Sample.world Sample.instant (mkReply 0 "1700000000: U")) "1700000000");
    reflexivity.
Defined.

(** ** The formatter, further *)

Lemma string_of_uint_length (d : Decimal.uint) :
  String.length (NilEmpty.string_of_uint d) = Decimal.nb_digits d.
Proof. induction d; simpl; congruence. Qed.

Lemma of_uint_acc_bounds (d : Decimal.uint) (acc : positive) :
  (Npos acc * 10 ^ N.of_nat (Decimal.nb_digits d)
   <= Npos (Pos.of_uint_acc d acc)
   < (Npos acc + 1) * 10 ^ N.of_nat (Decimal.nb_digits d))%N.
Proof.
  revert acc. induction d as [|d IH|d IH|d IH|d IH|d IH|d IH|d IH|d IH|d IH|d IH];
    intros acc;
    [cbn; lia | ..];
    cbn [Pos.of_uint_acc Decimal.nb_digits];
    rewrite Nat2N.inj_succ, N.pow_succ_r';
    match goal with |- context [Pos.of_uint_acc d ?a] => specialize (IH a) end;
    set (X := (10 ^ N.of_nat (Decimal.nb_digits d))%N) in *;
    set (V := N.pos (Pos.of_uint_acc d _)) in *;
    nia.
Qed.

(** A positive number of [k] decimal digits lies between [10^(k-1)] and
    [10^k]. *)
Lemma to_uint_bounds (p : positive) :
  (10 ^ N.of_nat (Nat.pred (Decimal.nb_digits (Pos.to_uint p))) <= Npos p
   < 10 ^ N.of_nat (Decimal.nb_digits (Pos.to_uint p)))%N.
Proof.
  pose proof (DecimalPos.Unsigned.of_to p) as E.
  pose proof (DecimalPos.Unsigned.to_of (Pos.to_uint p)) as U.
  rewrite E in U. cbn [N.to_uint] in U.
  pose proof (DecimalPos.Unsigned.to_uint_nonzero p) as Z.
  destruct (Pos.to_uint p) as [|d|d|d|d|d|d|d|d|d|d] eqn:D;
    try (cbn [Pos.of_uint] in E; rewrite <- E;
         cbn [Decimal.nb_digits Nat.pred];
         rewrite Nat2N.inj_succ, N.pow_succ_r';
         match goal with |- context [Pos.of_uint_acc d ?a] =>
           pose proof (of_uint_acc_bounds d a) as B end;
         set (X := (10 ^ N.of_nat (Decimal.nb_digits d))%N) in *;
         set (V := N.pos (Pos.of_uint_acc d _)) in *; nia).
  - discriminate E.
  - exfalso. unfold Decimal.unorm in U. cbn [Decimal.nzhead] in U.
    pose proof (nb_digits_nzhead d) as L.
    destruct (Decimal.nzhead d) eqn:N0;
      try (rewrite <- U in L; cbn [Decimal.nb_digits] in L; lia).
    now apply Z.
Qed.

Lemma digits_length (n : N) (k : nat) :
  (String.length (Str.digits n) <= S k)%nat <-> (n < 10 ^ N.of_nat (S k))%N.
Proof.
  unfold Str.digits. rewrite string_of_uint_length.
  destruct n as [|p].
  - cbn. split; [intros _; apply N.neq_0_lt_0, N.pow_nonzero; discriminate | lia].
  - cbn [N.to_uint]. pose proof (to_uint_bounds p) as [Lo Hi].
    set (L := Decimal.nb_digits (Pos.to_uint p)) in *.
    split.
    + intros H. eapply N.lt_le_trans; [exact Hi|].
      apply N.pow_le_mono_r; [discriminate | lia].
    + intros H. destruct (Nat.le_gt_cases L (S k)) as [|G]; [assumption|].
      exfalso. assert (10 ^ N.of_nat (S k) <= 10 ^ N.of_nat (Nat.pred L))%N.
      { apply N.pow_le_mono_r; [discriminate | lia]. }
      lia.
Qed.

(** The digits of a number start with a digit. *)
Lemma digits_head (n : N) :
  exists h s', Str.digits n = String h s'
               /\ Ascii.eqb h " " = false /\ Ascii.eqb h "-" = false.
Proof.
  unfold Str.digits. destruct n as [|p]; [cbn; eauto|]. cbn [N.to_uint].
  pose proof (DecimalPos.Unsigned.to_uint_nonnil p) as Z.
  destruct (Pos.to_uint p); [congruence|..]; cbn; eauto.
Qed.

Lemma accepted_rjust (h : ascii) (s : string) :
  Spec.accepted (Str.rjust 5 (String h s))
  = (String.length (String h s) <=? 4)%nat
    || ((String.length (String h s) =? 5)%nat
        && (Ascii.eqb h " " || Ascii.eqb h "-")).
Proof.
  destruct s as [|a [|b [|c [|d [|e s]]]]]; try reflexivity.
  unfold Spec.accepted, Str.rjust, Str.len.
  cbn [String.length Nat.sub Str.repeat append].
  rewrite (proj2 (Z.leb_gt _ _)) by (cbn [String.length]; lia). reflexivity.
Qed.

Lemma bool_eq_iff (a b : bool) : (a = true <-> b = true) -> a = b.
Proof.
  destruct a, b; intros [H1 H2]; try reflexivity;
    [symmetry; now apply H1 | now apply H2].
Qed.

(** The integer tier is accepted exactly below ten thousand in
    magnitude. *)
Lemma accepted_signed_integer (v : float) :
  Spec.accepted (Spec.signed_integer v) = (Z.abs (Spec.truncate v) <? 10000).
Proof.
  unfold Spec.signed_integer. set (z := Spec.truncate v).
  assert (Pw : (10 ^ N.of_nat 4 = 10000)%N) by reflexivity.
  destruct z as [|p|p]; [reflexivity| |].
  - unfold Str.of_int. cbn [Z.to_N Z.abs].
    destruct (digits_head (Npos p)) as [h [s' [E [H1 H2]]]].
    pose proof (digits_length (Npos p) 3) as L. rewrite Pw, E in L.
    rewrite E, accepted_rjust, H1, H2. cbn [orb]. rewrite andb_false_r, orb_false_r.
    apply bool_eq_iff. rewrite Nat.leb_le, Z.ltb_lt, L. lia.
  - unfold Str.of_int. cbn [Z.abs].
    destruct (digits_head (Npos p)) as [h [s' [E [H1 H2]]]].
    pose proof (digits_length (Npos p) 3) as L. rewrite Pw in L.
    rewrite accepted_rjust. cbn [Ascii.eqb Bool.eqb orb String.length].
    rewrite andb_true_r.
    apply bool_eq_iff. rewrite orb_true_iff, Nat.leb_le, Nat.eqb_eq, Z.ltb_lt.
    split; [intros HH; assert (HL : (String.length (Str.digits (N.pos p)) <= 4)%nat) by lia;
            apply L in HL; lia|].
    intros HH. assert (HL : (N.pos p < 10000)%N) by lia. apply L in HL. lia.
Qed.

Lemma digits_one (r : N) : (r < 10)%N -> String.length (Str.digits r) = 1%nat.
Proof.
  intros H. pose proof (digits_length r 0) as L.
  destruct (digits_head r) as [h [s' [E _]]]. rewrite E in *.
  cbn [String.length] in *. assert ((S (String.length s') <= 1)%nat); [|lia].
  apply L. exact H.
Qed.

(** The one-decimal tier is accepted exactly below a thousand tenths. *)
Lemma accepted_percent_5_1f (v : float) :
  Float.is_finite v = true ->
  Spec.accepted (percent_5_1f v) = (tenths_of v <? 1000)%N.
Proof.
  destruct v as [s|s| |s m e]; try discriminate; intros _.
  { destruct s; reflexivity. }
  unfold percent_5_1f, Float.fixed1, tenths_of. cbv zeta.
  set (t := Float.tenths m e).
  assert (Hr : String.length (Str.digits (t mod 10)) = 1%nat).
  { apply digits_one. apply N.mod_lt. discriminate. }
  destruct (digits_head (t / 10)) as [h [q' [E [H1 H2]]]].
  pose proof (digits_length (t / 10) 1) as L. rewrite E in L.
  assert (Pw : (10 ^ N.of_nat 2 = 100)%N) by reflexivity. rewrite Pw in L.
  assert (Q : (t / 10 < 100 <-> t < 1000)%N).
  { pose proof (N.div_mod' t 10) as Dm.
    assert (Ml : (t mod 10 < 10)%N) by (apply N.mod_lt; discriminate).
    revert Dm Ml. generalize (t / 10)%N (t mod 10)%N. intros a b Dm Ml. lia. }
  cbn [String.length] in L.
  destruct s; unfold Float.minus.
  - cbn [append]. rewrite accepted_rjust.
    cbn [Ascii.eqb Bool.eqb orb String.length]. rewrite andb_true_r.
    rewrite E. cbn [append String.length]. rewrite append_length.
    cbn [String.length]. rewrite Hr.
    apply bool_eq_iff. rewrite orb_true_iff, Nat.leb_le, Nat.eqb_eq, N.ltb_lt, <- Q.
    split; [intros HH; apply L; lia | intros HH; apply L in HH; lia].
  - cbn [append]. rewrite E. cbn [append]. rewrite accepted_rjust, H1, H2.
    cbn [orb]. rewrite andb_false_r, orb_false_r.
    cbn [String.length]. rewrite append_length. cbn [String.length]. rewrite Hr.
    apply bool_eq_iff. rewrite Nat.leb_le, N.ltb_lt, <- Q.
    split; [intros HH; apply L; lia | intros HH; apply L in HH; lia].
Qed.

(** X13. The ranges of the formatter. A finite value is shown with one
    decimal place when its magnitude rounds to less than 1000 tenths
    (below 99.95), else as its integer part when that is below 10000 in
    magnitude, else as [" High"] when positive and [" Low "] when
    negative. *)
Theorem format_ranges (v : float) :
  Float.is_finite v = true ->
  format v
  = Ok (if (tenths_of v <? 1000)%N then percent_5_1f v
        else if Z.abs (Spec.truncate v) <? 10000 then Spec.signed_integer v
        else if Spec.positive v then " High" else " Low ").
Proof.
  intros F. rewrite (format_refines v F). unfold Spec.three_tiers.
  now rewrite (accepted_percent_5_1f v F), accepted_signed_integer.
Qed.

Lemma format_ranges_witness :
  format (Float.of_ratio false 9995 100) = Ok "   99"
  /\ format (Float.of_ratio false 9994 100) = Ok " 99.9".
Proof.
  split.
  - rewrite (format_ranges (Float.of_ratio false 9995 100) eq_refl).
    vm_compute. reflexivity.
  - rewrite (format_ranges (Float.of_ratio false 9994 100) eq_refl).
    vm_compute. reflexivity.
Defined.

(** The scaled integer of the one-decimal rendering is at least ten
    times the integer part. *)
Lemma tenths_truncate (v : float) :
  10 * Z.abs (Spec.truncate v) <= Z.of_N (tenths_of v).
Proof.
  destruct v as [s|s| |s m e]; try (cbn; lia).
  unfold Spec.truncate, tenths_of, Float.to_int, Float.tenths.
  set (a := if 0 <=? e then Z.pos m * 2 ^ e else Z.pos m / 2 ^ (- e)).
  assert (Ha : Z.abs (if s then - a else a) = a /\ 0 <= a).
  { assert (0 <= a); [|destruct s; lia].
    unfold a. destruct (0 <=? e) eqn:E.
    - apply Z.leb_le in E. pose proof (Z.pow_pos_nonneg 2 e). nia.
    - apply Z.leb_gt in E. apply Z.div_pos; [lia|]. apply Z.pow_pos_nonneg; lia. }
  destruct Ha as [-> Ha]. unfold a in *. clear a.
  destruct (0 <=? e) eqn:E.
  - rewrite Z2N.id by lia. lia.
  - apply Z.leb_gt in E. cbv zeta.
    assert (Hd : 0 < 2 ^ (- e)) by (apply Z.pow_pos_nonneg; lia).
    set (d := 2 ^ (- e)) in *.
    assert (Hq : 10 * (Z.pos m / d) <= 10 * Z.pos m / d).
    { apply Z.div_le_lower_bound; [exact Hd|].
      pose proof (Z.mul_div_le (Z.pos m) d Hd). lia. }
    rewrite Z2N.id; repeat match goal with |- context [if ?b then _ else _] => destruct b end; lia.
Qed.

Lemma positive_truncate (v : float) :
  0 < Z.abs (Spec.truncate v) -> Spec.positive v = (0 <? Spec.truncate v).
Proof.
  destruct v as [s|s| |s m e]; try (cbn; lia).
  unfold Spec.truncate, Float.to_int, Spec.positive.
  set (a := if 0 <=? e then Z.pos m * 2 ^ e else Z.pos m / 2 ^ (- e)).
  assert (0 <= a).
  { unfold a. destruct (0 <=? e) eqn:E.
    - apply Z.leb_le in E. pose proof (Z.pow_pos_nonneg 2 e). nia.
    - apply Z.leb_gt in E. apply Z.div_pos; [lia|]. apply Z.pow_pos_nonneg; lia. }
  intros P. symmetry. destruct s.
  - apply Z.ltb_ge. lia.
  - apply Z.ltb_lt. lia.
Qed.

(** The numeric renderings are made of blanks, a sign, digits and a
    point: no other character occurs in them. *)
Section Letters.

Variable c : ascii.
Hypothesis letter : Str.contains c " -.0123456789" = false.

Lemma letter_uint (d : Decimal.uint) :
  Str.contains c (NilEmpty.string_of_uint d) = false.
Proof.
  pose proof letter as L. cbn [Str.contains] in L.
  repeat (apply orb_false_elim in L as [? L]).
  induction d; cbn [NilEmpty.string_of_uint Str.contains];
    [reflexivity | rewrite IHd, orb_false_r; assumption ..].
Qed.

Lemma letter_rjust (w : nat) (s : string) :
  Str.contains c s = false -> Str.contains c (Str.rjust w s) = false.
Proof.
  intros H. unfold Str.rjust. rewrite contains_append, H, contains_repeat; [reflexivity|].
  pose proof letter as L. cbn [Str.contains] in L.
  now apply orb_false_elim in L as [? L].
Qed.

Lemma letter_signed_integer (v : float) :
  Str.contains c (Spec.signed_integer v) = false.
Proof.
  pose proof letter as L. cbn [Str.contains] in L.
  apply orb_false_elim in L as [_ L]. apply orb_false_elim in L as [Hm _].
  apply letter_rjust. unfold Str.of_int, Str.digits.
  destruct (Spec.truncate v); cbn [Str.contains]; rewrite ?Hm; apply letter_uint.
Qed.

Lemma letter_percent_5_1f (v : float) :
  Float.is_finite v = true -> Str.contains c (percent_5_1f v) = false.
Proof.
  pose proof letter as L. cbn [Str.contains] in L.
  apply orb_false_elim in L as [_ L]. apply orb_false_elim in L as [Hm L].
  apply orb_false_elim in L as [Hp L]. apply orb_false_elim in L as [Hz _].
  intros F. apply letter_rjust.
  assert (M : forall s, Str.contains c (Float.minus s) = false).
  { intros [|]; cbn [Float.minus Str.contains]; rewrite ?Hm; reflexivity. }
  destruct v as [s|s| |s m e]; try discriminate; unfold Float.fixed1; cbv zeta.
  - rewrite contains_append, M. cbn [Str.contains]. now rewrite Hz, Hp.
  - rewrite !contains_append, M. unfold Str.digits. rewrite !letter_uint.
    cbn [Str.contains]. now rewrite Hp.
Qed.

End Letters.

(** X14. The thresholds of the two words. [format] returns [" High"]
    exactly for the floats whose integer part is at least 10000 and
    [" Low "] exactly for those whose integer part is at most -10000;
    infinities and NaN, which have no integer part, get neither. *)
Theorem format_high_low (v : float) :
  (format v = Ok " High" <-> exists n, Float.to_int v = Ok n /\ 10000 <= n)
  /\ (format v = Ok " Low " <-> exists n, Float.to_int v = Ok n /\ n <= -10000).
Proof.
  destruct (Float.is_finite v) eqn:F.
  2:{ rewrite (format_not_finite v F).
      destruct v as [s|s| |s m e]; try discriminate; try destruct s;
        (split; (split; [intros [=] | intros [n [[=] _]]])). }
  rewrite (format_refines v F), (to_int_finite v F). unfold Spec.three_tiers.
  rewrite (accepted_percent_5_1f v F), accepted_signed_integer.
  pose proof (tenths_truncate v) as T. pose proof (positive_truncate v) as P.
  pose proof (letter_percent_5_1f "g" eq_refl v F) as G1.
  pose proof (letter_percent_5_1f "w" eq_refl v F) as W1.
  pose proof (letter_signed_integer "g" eq_refl v) as G2.
  pose proof (letter_signed_integer "w" eq_refl v) as W2.
  assert (Ex : forall Q : Z -> Prop,
            (exists n, Ok (Spec.truncate v) = Ok n /\ Q n) <-> Q (Spec.truncate v)).
  { intros Q. split; [intros [n [[= <-] H]]; exact H | eauto]. }
  rewrite !Ex.
  destruct (N.ltb_spec (tenths_of v) 1000) as [L|L].
  { split; (split; [intros [= E]; rewrite E in *; discriminate | lia]). }
  destruct (Z.ltb_spec (Z.abs (Spec.truncate v)) 10000) as [A|A].
  { split; (split; [intros [= E]; rewrite E in *; discriminate | lia]). }
  rewrite P by lia.
  destruct (Z.ltb_spec 0 (Spec.truncate v)) as [S|S]; split; split; intros H;
    try discriminate; try lia; reflexivity.
Qed.

(** ** The command line, the loop and the display together *)

(** X15. When the targets come from the command line, each parsed by
    [Target.of], every label [main] hands to the display has exactly six
    characters, whatever the collaborator replies and however the loop
    ends. *)
Theorem command_line_labels_fill_display (n : nat) (cfg : Config)
    (args : list string) (targets : list Target.t) (w : World) :
  Forall2 (fun a t => Target.of_ a = Ok t) args targets ->
  exists ls,
    shown (trace (snd (main n cfg targets w))) = (shown (trace w) ++ ls)%list
    /\ Forall (fun l => String.length l = 6%nat) ls.
Proof.
  intros Args.
  destruct (decide (targets = [])) as [->|Ht].
  { rewrite main_no_targets. exists []. cbn. rewrite shown_app. cbn.
    rewrite !app_nil_r. split; [reflexivity | constructor]. }
  rewrite main_loop.
  set (w0 := emit (EvBrightness (brightness cfg)) w).
  set (I := fun (w1 : World) =>
              exists ls, shown (trace w1) = (shown (trace w) ++ ls)%list
                         /\ Forall (fun l => String.length l = 6%nat) ls).
  pose proof (loop_rule cfg targets
                (fun _ states w1 => length states = length targets /\ I w1)
                (fun _ _ w1 => I w1)) as Rule.
  assert (Step : forall k t states w1,
            length states = length targets /\ I w1 ->
            targets !! (k mod length targets)%nat = Some t ->
            match body cfg (k mod length targets) t states w1 with
            | (Ok states', w') => length states' = length targets /\ I w'
            | (Raise e, w') => I w'
            end).
  { intros k t states w1 [L [ls [Hs HF]]] Hk.
    destruct (body_ok_length cfg k t states targets L Hk) as [s Hst].
    pose proof (body_shown cfg _ t states s w1 Hst) as Sh.
    pose proof (body_length cfg (k mod length targets)%nat t states) as BL.
    assert (Sym : String.length (Target.symbol t) = 1%nat).
    { destruct (Forall2_lookup_r _ _ _ _ _ Args Hk) as [a [_ Ha]].
      exact (of_symbol_length a t Ha). }
    destruct (body cfg (k mod length targets) t states w1) as [[states'|e] w'] eqn:E.
    - split.
      + rewrite (BL states' s w1 Hst); [exact L | now rewrite E].
      + destruct Sh as [r [Sh Hr]]. exists (ls ++ [(Target.symbol t ++ r)%string])%list.
        split; [now rewrite Sh, Hs, app_assoc|].
        apply Forall_app. split; [exact HF|]. constructor; [|constructor].
        rewrite append_length. lia.
    - exists ls. rewrite Sh. auto. }
  specialize (Rule Step n Ht 0%nat (replicate (length targets) None) w0).
  assert (I0 : length (replicate (length targets) (@None State)) = length targets
               /\ I w0).
  { split; [apply length_replicate|]. exists []. unfold w0, emit. cbn [trace].
    rewrite shown_app. cbn. rewrite !app_nil_r. split; [reflexivity | constructor]. }
  specialize (Rule I0).
  destruct (loop n cfg (cycle_state targets 0) (replicate (length targets) None) w0)
    as [[st|e] w'] eqn:E; cbn [fst snd].
  - apply Rule.
  - destruct Rule as [j [_ HI]]. exact HI.
Qed.

Lemma command_line_labels_fill_display_witness :
  exists ls,
    shown (trace (snd (main 3 Sample.config
                         [Target.mk "t" (mkPath "x.rrd") Float.one;
                          Target.mk "h" (mkPath "y.rrd") (Float.of_ratio false 1 10)]
                         (Sample.world Sample.instant (mkReply 0 "1700000000: 21.5")))))
    = (shown (trace (Sample.world Sample.instant (mkReply 0 "1700000000: 21.5")))
       ++ ls)%list
    /\ Forall (fun l => String.length l = 6%nat) ls.
Proof.
  apply (command_line_labels_fill_display 3 Sample.config ["t,x.rrd"; "h,y.rrd,0.1"]).
  repeat constructor.
Defined.

(** ** The scroll-in transition *)








